(** * om-access-authentication-sdk: the dynamic-token guard and the OTP service

    A shallow embedding of [src/decorators/JWTDynamic.ts]
    ([AuthenticationJWTDynamic]) and of [src/services/OtpService.ts]
    ([OtpService]), and the properties of them that the specification
    states.

    Asynchronous methods are run to completion one after the other
    ([await] is sequencing), so a method is a state transformer that either
    returns a value or throws. *)

From Stdlib Require Import ZArith.
From stdpp Require Import gmap strings.

Local Open Scope string_scope.

(** ** JavaScript values the code looks at *)

(** What can be thrown.  [Error] is [Error(msg)], [TypeError] is the fault the
    runtime raises on a property read of [null]/[undefined] (or that a library
    raises on a bad argument), [HttpException] is Nest's
    [new HttpException(response, status, { cause })]. *)
Inductive Exception : Type :=
| Error (message : string)
| TypeError (message : string)
| HttpException (response : string) (status : Z) (cause : string).

(** [error.message] *)
Definition message (e : Exception) : string :=
  match e with
  | Error m => m
  | TypeError m => m
  | HttpException r _ _ => r
  end.

(** How a call ends. *)
Inductive Completion (A : Type) : Type :=
| Returns (a : A)
| Throws (e : Exception).
Arguments Returns {A} a.
Arguments Throws {A} e.

(** [v != null] *)
Definition notNull {A : Type} (v : option A) : bool :=
  match v with
  | Some _ => true
  | None => false
  end.

(** ** State and error monad *)

Module Monad.

Definition M (S A : Type) : Type := S -> Completion A * S.

Definition ret {S A : Type} (a : A) : M S A := fun s => (Returns a, s).

Definition throw {S A : Type} (e : Exception) : M S A := fun s => (Throws e, s).

Definition bind {S A B : Type} (m : M S A) (k : A -> M S B) : M S B :=
  fun s =>
    match m s with
    | (Returns a, s') => k a s'
    | (Throws e, s') => (Throws e, s')
    end.

(** [try { m } catch (error) { h error }]: what [m] changed before it threw
    stays changed. *)
Definition try_catch {S A : Type} (m : M S A) (h : Exception -> M S A) : M S A :=
  fun s =>
    match m s with
    | (Returns a, s') => (Returns a, s')
    | (Throws e, s') => h e s'
    end.

Definition get {S : Type} : M S S := fun s => (Returns s, s).

Definition modify {S : Type} (f : S -> S) : M S unit := fun s => (Returns tt, f s).

(** Run a computation on the second component of a pair of states. *)
Definition lift {R S A : Type} (m : M S A) : M (R * S) A :=
  fun rs =>
    match m (snd rs) with
    | (c, s') => (c, (fst rs, s'))
    end.

End Monad.

Import Monad.

(** The monad's [bind] and [ret] behind stdpp's notations [x ← m; k] and
    [m ;; k]. *)
#[global] Instance M_bind {S : Type} : MBind (M S) := fun A B k m => bind m k.
#[global] Instance M_ret {S : Type} : MRet (M S) := fun A a => ret a.

(** ** The login store *)

(** helpers/ErrorCode: the codes the OTP service returns. *)
Inductive ErrorCode : Type :=
| LOGIN_NOT_FOUND
| LOGIN_ALREADY_HAS_OTP
| TOKEN_OTP_INVALID.

(** [TupleResult<T, E>]: the pair [[value, error]], either side [null]. *)
Definition TupleResult (T : Type) : Type := (option T * option ErrorCode)%type.

(** The fields of [LoginEntity] the code reads and writes. *)
Record LoginEntity : Type := mkLogin {
  login_id : string;
  email : string;
  otpToken : option string;
}.

(** A row of the login table; the primary key is the key of the table. *)
Record LoginRow : Type := mkRow {
  row_email : string;
  row_otpToken : option string;
}.

Definition entity_of (key : string) (r : LoginRow) : LoginEntity :=
  {| login_id := key; email := row_email r; otpToken := row_otpToken r |}.

Definition row_of (l : LoginEntity) : LoginRow :=
  {| row_email := email l; row_otpToken := otpToken l |}.

(** A call of a method of [OtpService], recorded on entry.  The history is
    ghost state: the code does not hold it, it only says which methods ran. *)
Inductive OtpCall : Type :=
| CreateOTP (loginId : string)
| UpdateOTP (loginId token : string)
| ValidateOTP (loginId token : string)
| RemoveOTP (loginId token : string).

(** What the OTP service runs against: the login table, the clock the
    time-based check depends on, how many secrets have been drawn from the
    random generator, and the ghost history. *)
Record World : Type := mkWorld {
  db : gmap string LoginRow;
  now : Z;
  entropy : nat;
  history : list OtpCall;
}.

Definition set_db (f : gmap string LoginRow -> gmap string LoginRow) (w : World) : World :=
  {| db := f (db w); now := now w; entropy := entropy w; history := history w |}.

Definition tick_entropy (w : World) : World :=
  {| db := db w; now := now w; entropy := S (entropy w); history := history w |}.

Definition log_call (c : OtpCall) (w : World) : World :=
  {| db := db w; now := now w; entropy := entropy w; history := history w ++ [c] |}.

Module Repository.

(** [repository.findOne({ where: { id } })]: the entity, or [null]. *)
Definition findOne (id : string) : M World (option LoginEntity) :=
  w ← get; mret (entity_of id <$> db w !! id).

(** [repository.save(login)]: insert or overwrite by primary key. *)
Definition save (login : LoginEntity) : M World unit :=
  modify (set_db (fun d => <[login_id login := row_of login]> d)).

End Repository.

(** [login.otpToken]: a [TypeError] when [login] is [null]. *)
Definition read_otpToken (login : option LoginEntity) : M World (option string) :=
  match login with
  | Some l => mret (otpToken l)
  | None => throw (TypeError "Cannot read properties of null (reading 'otpToken')")
  end.

(** ** OtpService *)

Record SecretAndKeyUri : Type := mkSecretAndKeyUri {
  secret : string;
  keyUri : string;
}.

Module OtpService.
Section WithAuthenticator.

(** otplib's [authenticator], which is not part of the repository.
    [authenticator.check(token, secret)] at a given time returns a boolean
    or throws (its documentation wraps the call in [try]/[catch]); the code
    hands it [login.otpToken] as it is, [null] included.
    [authenticator.generateSecret()] is the [n]-th draw of the generator.
    [authenticator.keyuri(user, service, secret)] is a pure function. *)
Variable authenticator_check : Z -> string -> option string -> Completion bool.
Variable authenticator_generateSecret : nat -> string.
Variable authenticator_keyuri : string -> string -> string -> string.

(** [AuthenticationModule.config.appName] *)
Variable appName : string.

Definition check (token : string) (otp : option string) : M World bool :=
  fun w => (authenticator_check (now w) token otp, w).

Definition generateSecret : M World string :=
  w ← get; modify tick_entropy ;; mret (authenticator_generateSecret (entropy w)).

Definition createOTP (loginId : string) : M World (TupleResult SecretAndKeyUri) :=
  modify (log_call (CreateOTP loginId)) ;;
  login ← Repository.findOne loginId;
  match login with
  | None => mret (None, Some LOGIN_NOT_FOUND)
  | Some login =>
      if notNull (otpToken login) then mret (None, Some LOGIN_ALREADY_HAS_OTP)
      else
        s ← generateSecret;
        let login := {| login_id := login_id login; email := email login; otpToken := Some s |} in
        Repository.save login ;;
        let keyUri := authenticator_keyuri (email login) appName s in
        mret (Some {| secret := s; keyUri := keyUri |}, None)
  end.

Definition updateOTP (loginId token : string) : M World (TupleResult SecretAndKeyUri) :=
  modify (log_call (UpdateOTP loginId token)) ;;
  login ← Repository.findOne loginId;
  match login with
  | None => mret (None, Some LOGIN_NOT_FOUND)
  | Some login =>
      tokenIsValid ← check token (otpToken login);
      if negb tokenIsValid then mret (None, Some TOKEN_OTP_INVALID)
      else
        s ← generateSecret;
        let login := {| login_id := login_id login; email := email login; otpToken := Some s |} in
        Repository.save login ;;
        let keyUri := authenticator_keyuri (email login) appName s in
        mret (Some {| secret := s; keyUri := keyUri |}, None)
  end.

(** [if (!login) [null, ErrorCode.LOGIN_NOT_FOUND]] is an expression
    statement: the tuple is built and dropped, and control goes on to
    [login.otpToken]. *)
Definition validateOTP (loginId token : string) : M World (TupleResult bool) :=
  modify (log_call (ValidateOTP loginId token)) ;;
  login ← Repository.findOne loginId;
  otp ← read_otpToken login;
  tokenIsValid ← check token otp;
  mret (Some tokenIsValid, None).

(** The same dropped tuple as in [validateOTP]; after the check the method
    returns [[true, null]] and neither assigns [login.otpToken] nor saves. *)
Definition removeOTP (loginId token : string) : M World (TupleResult bool) :=
  modify (log_call (RemoveOTP loginId token)) ;;
  login ← Repository.findOne loginId;
  otp ← read_otpToken login;
  tokenIsValid ← check token otp;
  if negb tokenIsValid then mret (None, Some TOKEN_OTP_INVALID)
  else mret (Some true, None).

End WithAuthenticator.
End OtpService.

(** ** AuthenticationJWTDynamic *)

(** types/LoginTypes: the members of the enum [RequiredPin] the [switch]
    names; [OtherPin] is any other value the metadata may carry, which the
    [switch] sends to [default]. *)
Inductive RequiredPin : Type :=
| ANY
| ONLY_EMAIL
| ONLY_OTP
| OtherPin (value : string).

(** The metadata [JWTDynamic] attaches to a handler. *)
Record Policy : Type := mkPolicy {
  step : string;
  requiredPin : RequiredPin;
}.

(** The decorator; [requiredPin] defaults to [RequiredPin.ANY]. *)
Definition JWTDynamic (step : string) (requiredPin : option RequiredPin) : Policy :=
  {| step := step; requiredPin := default ANY requiredPin |}.

(** dtos/JWTDynamicPayloadDTO: the claims of a dynamic token the guard reads. *)
Record Payload : Type := mkPayload {
  payload_type : string;
  payload_id : string;
  payload_pin : string;
}.

(** helpers/BearerTokenProcessor, as the guard sees an instance of it. *)
Record BearerTokenProcessor : Type := mkBearerTokenProcessor {
  isBearerToken : bool;
  isSignatureValid : string -> bool;
  payload : option Payload;
}.

(** The request of the execution context: its headers (an object keyed by
    header name, or [undefined]) and the payload the guard attaches. *)
Record Request : Type := mkRequest {
  headers : option (gmap string string);
  processedDynamicPayloadDTO : option Payload;
}.

Definition set_processedDynamicPayloadDTO (p : option Payload) (r : Request) : Request :=
  {| headers := headers r; processedDynamicPayloadDTO := p |}.

(** A value that passes [if (v)]: present and not the empty string. *)
Definition truthy (v : option string) : option string :=
  match v with
  | Some s => if String.eqb s "" then None else Some s
  | None => None
  end.

(** [HttpStatus.UNAUTHORIZED] *)
Definition UNAUTHORIZED : Z := 401.

Module AuthenticationJWTDynamic.
Section WithCollaborators.

Variable authenticator_check : Z -> string -> option string -> Completion bool.

(** [AuthenticationService.validatePin(pin, plainPin)] *)
Variable validatePin : string -> string -> bool.

(** [new BearerTokenProcessor(jwtService, token)] *)
Variable newBearerTokenProcessor : string -> BearerTokenProcessor.

(** [AuthenticationModule.config.secondarySecret] *)
Variable secondarySecret : string.

Definition validateOtpToken (loginId otp : string) : M World bool :=
  r ← OtpService.validateOTP authenticator_check loginId otp;
  match fst r with
  | Some true => mret true
  | _ => throw (Error "Invalid otp pin")
  end.

Definition validateEmailToken (pin plainPin : string) : M World bool :=
  let pinIsValid := validatePin pin plainPin in
  if negb pinIsValid then throw (Error "Invalid email pin") else mret true.

(** [request.processedDynamicPayloadDTO.pin] and [.id], read off the
    request at the time of the call. *)
Definition read_dto {A : Type} (field : Payload -> A) (name : string)
  : M (Request * World) A :=
  rw ← get;
  match processedDynamicPayloadDTO (fst rw) with
  | Some p => mret (field p)
  | None =>
      throw (TypeError ("Cannot read properties of undefined (reading '" ++ name ++ "')"))
  end.

Definition checkEmailPin (pin : string) : M (Request * World) bool :=
  stored ← read_dto payload_pin "pin";
  lift (validateEmailToken stored pin).

Definition checkOtpPin (otp : string) : M (Request * World) bool :=
  loginId ← read_dto payload_id "id";
  lift (validateOtpToken loginId otp).

(** The [switch] on [params.requiredPin]. *)
Definition requirePin (requiredPin : RequiredPin) (pin otp : option string)
  : M (Request * World) bool :=
  match requiredPin with
  | ONLY_EMAIL =>
      match truthy pin with
      | None => throw (Error "No email pin given")
      | Some pin => checkEmailPin pin
      end
  | ONLY_OTP =>
      match truthy otp with
      | None => throw (Error "No otp pin given")
      | Some otp => checkOtpPin otp
      end
  | ANY =>
      match truthy pin, truthy otp with
      | None, None => throw (Error "No pin specified")
      | pin, otp =>
          match pin with Some pin => checkEmailPin pin | None => mret true end ;;
          match otp with Some otp => checkOtpPin otp | None => mret true end
      end
  | OtherPin _ => mret true
  end.

(** The body of the [try] block. *)
Definition guarded (params : Policy) : M (Request * World) bool :=
  rw ← get;
  match headers (fst rw) with
  | None => throw (Error "No header given")
  | Some hs =>
      match truthy (hs !! "x-temporary-authorization") with
      | None => throw (Error "No authorization header given")
      | Some token =>
          let bearerTokenProcessor := newBearerTokenProcessor token in
          if negb (isBearerToken bearerTokenProcessor) then throw (Error "JWT decode error")
          else if negb (isSignatureValid bearerTokenProcessor secondarySecret)
          then throw (Error "JWT signature error")
          else if negb (bool_decide (Some (step params)
                                     = payload_type <$> payload bearerTokenProcessor))
          then throw (Error "Invalid step")
          else
            modify (fun rw => (set_processedDynamicPayloadDTO
                                 (payload bearerTokenProcessor) (fst rw), snd rw)) ;;
            let pin := hs !! "x-email-pin" in
            let otp := hs !! "x-otp-pin" in
            requirePin (requiredPin params) pin otp ;;
            mret true
      end
  end.

(** [params] is what the reflector finds on the handler or its class:
    [None] when the handler carries no [JWTDynamic] metadata. *)
Definition canActivate (params : option Policy) : M (Request * World) bool :=
  match params with
  | None => mret true
  | Some params =>
      try_catch (guarded params)
        (fun error =>
           throw (HttpException "Not authorized for perform action" UNAUTHORIZED
                    (message error)))
  end.

End WithCollaborators.
End AuthenticationJWTDynamic.

(** ** What the guard's answers mean *)

Module Outcome.

(** The one failure the guard lets out of [canActivate]: status 401 with a
    fixed response, the reason kept in [cause]. *)
Definition Unauthorized (c : Completion bool) : Prop :=
  exists cause : string,
    c = Throws (HttpException "Not authorized for perform action" UNAUTHORIZED cause).

Section Vocabulary.

Variable authenticator_check : Z -> string -> option string -> Completion bool.
Variable validatePin : string -> string -> bool.
Variable newBearerTokenProcessor : string -> BearerTokenProcessor.
Variable secondarySecret : string.

(** How [validateEmailToken(stored, pin)] ends. *)
Definition emailVerdict (stored pin : string) : Completion bool :=
  if validatePin stored pin then Returns true else Throws (Error "Invalid email pin").

(** How [validateOtpToken(loginId, otp)] ends in a world. *)
Definition otpVerdict (w : World) (loginId otp : string) : Completion bool :=
  match db w !! loginId with
  | None => Throws (TypeError "Cannot read properties of null (reading 'otpToken')")
  | Some row =>
      match authenticator_check (now w) otp (row_otpToken row) with
      | Returns true => Returns true
      | Returns false => Throws (Error "Invalid otp pin")
      | Throws e => Throws e
      end
  end.

(** The login exists and the authenticator accepts the code against what is
    stored for it. *)
Definition otpAccepted (w : World) (loginId otp : string) : Prop :=
  exists row : LoginRow,
    db w !! loginId = Some row
    /\ authenticator_check (now w) otp (row_otpToken row) = Returns true.

(** The request carries a dynamic token that is well formed, signed with the
    secondary secret, and issued for the declared step; [p] is its payload. *)
Definition tokenAccepted (params : Policy) (hs : gmap string string) (p : Payload) : Prop :=
  exists token : string,
    truthy (hs !! "x-temporary-authorization") = Some token
    /\ isBearerToken (newBearerTokenProcessor token) = true
    /\ isSignatureValid (newBearerTokenProcessor token) secondarySecret = true
    /\ payload (newBearerTokenProcessor token) = Some p
    /\ payload_type p = step params.

(** The secondary-pin policy is met by the pin headers. *)
Definition pinSatisfied (rp : RequiredPin) (p : Payload) (pin otp : option string)
    (w : World) : Prop :=
  match rp with
  | ONLY_EMAIL => exists v, truthy pin = Some v /\ validatePin (payload_pin p) v = true
  | ONLY_OTP => exists v, truthy otp = Some v /\ otpAccepted w (payload_id p) v
  | ANY =>
      (truthy pin <> None \/ truthy otp <> None)
      /\ (forall v, truthy pin = Some v -> validatePin (payload_pin p) v = true)
      /\ (forall v, truthy otp = Some v -> otpAccepted w (payload_id p) v)
  | OtherPin _ => True
  end.

Definition Authorized (params : Policy) (req : Request) (w : World) : Prop :=
  exists (hs : gmap string string) (p : Payload),
    headers req = Some hs
    /\ tokenAccepted params hs p
    /\ pinSatisfied (requiredPin params) p (hs !! "x-email-pin") (hs !! "x-otp-pin") w.

(** The ways a request can fail under a policy: headers or token missing,
    token malformed, signature invalid, step mismatch, a required pin missing,
    a supplied email pin or OTP not valid, the login of the token not found. *)
Inductive Failure (params : Policy) (req : Request) (w : World) : Prop :=
| NoHeaders :
    headers req = None -> Failure params req w
| NoAuthorizationHeader hs :
    headers req = Some hs ->
    truthy (hs !! "x-temporary-authorization") = None -> Failure params req w
| JwtDecodeError hs token :
    headers req = Some hs ->
    truthy (hs !! "x-temporary-authorization") = Some token ->
    isBearerToken (newBearerTokenProcessor token) = false -> Failure params req w
| JwtSignatureError hs token :
    headers req = Some hs ->
    truthy (hs !! "x-temporary-authorization") = Some token ->
    isSignatureValid (newBearerTokenProcessor token) secondarySecret = false ->
    Failure params req w
| InvalidStep hs token :
    headers req = Some hs ->
    truthy (hs !! "x-temporary-authorization") = Some token ->
    payload_type <$> payload (newBearerTokenProcessor token) <> Some (step params) ->
    Failure params req w
| NoEmailPin hs :
    headers req = Some hs ->
    requiredPin params = ONLY_EMAIL ->
    truthy (hs !! "x-email-pin") = None -> Failure params req w
| NoOtpPin hs :
    headers req = Some hs ->
    requiredPin params = ONLY_OTP ->
    truthy (hs !! "x-otp-pin") = None -> Failure params req w
| NoPin hs :
    headers req = Some hs ->
    requiredPin params = ANY ->
    truthy (hs !! "x-email-pin") = None ->
    truthy (hs !! "x-otp-pin") = None -> Failure params req w
| InvalidEmailPin hs token p pin :
    headers req = Some hs ->
    truthy (hs !! "x-temporary-authorization") = Some token ->
    payload (newBearerTokenProcessor token) = Some p ->
    requiredPin params = ONLY_EMAIL \/ requiredPin params = ANY ->
    truthy (hs !! "x-email-pin") = Some pin ->
    validatePin (payload_pin p) pin = false -> Failure params req w
| InvalidOtpPin hs token p otp row :
    headers req = Some hs ->
    truthy (hs !! "x-temporary-authorization") = Some token ->
    payload (newBearerTokenProcessor token) = Some p ->
    requiredPin params = ONLY_OTP \/ requiredPin params = ANY ->
    truthy (hs !! "x-otp-pin") = Some otp ->
    db w !! payload_id p = Some row ->
    authenticator_check (now w) otp (row_otpToken row) <> Returns true ->
    Failure params req w
| LoginNotFound hs token p otp :
    headers req = Some hs ->
    truthy (hs !! "x-temporary-authorization") = Some token ->
    payload (newBearerTokenProcessor token) = Some p ->
    requiredPin params = ONLY_OTP \/ requiredPin params = ANY ->
    truthy (hs !! "x-otp-pin") = Some otp ->
    db w !! payload_id p = None -> Failure params req w.

End Vocabulary.
End Outcome.

(** ** A concrete deployment, to run the code on *)

Module Demo.

(** An authenticator in the manner of otplib's: [check] throws on a secret
    that is not a string (the key decoder is handed [null]), and otherwise
    accepts the one code that belongs to the secret at that time, which
    here is the secret followed by the parity of the clock. *)
Definition code_at (t : Z) (s : string) : string :=
  s ++ (if Z.even t then "0" else "1").

Definition authenticator_check (t : Z) (token : string) (s : option string)
  : Completion bool :=
  match s with
  | None => Throws (TypeError "The first argument must be of type string")
  | Some s => Returns (String.eqb token (code_at t s))
  end.

Definition authenticator_generateSecret (n : nat) : string :=
  "SECRET" ++ String.concat "" (replicate n "I").

Definition authenticator_keyuri (user service s : string) : string :=
  "otpauth://totp/" ++ service ++ ":" ++ user ++ "?secret=" ++ s.

Definition appName : string := "om".

Definition validatePin (pin plainPin : string) : bool := String.eqb pin plainPin.

Definition secondarySecret : string := "k2".

(** Tokens are written [step.id.pin.key]; only the four below exist. *)
Definition newBearerTokenProcessor (token : string) : BearerTokenProcessor :=
  if String.eqb token "reset.u1.4321.k2" then
    {| isBearerToken := true; isSignatureValid := String.eqb "k2";
       payload := Some {| payload_type := "reset"; payload_id := "u1"; payload_pin := "4321" |} |}
  else if String.eqb token "reset.u2.4321.k2" then
    {| isBearerToken := true; isSignatureValid := String.eqb "k2";
       payload := Some {| payload_type := "reset"; payload_id := "u2"; payload_pin := "4321" |} |}
  else if String.eqb token "reset.ghost.4321.k2" then
    {| isBearerToken := true; isSignatureValid := String.eqb "k2";
       payload := Some {| payload_type := "reset"; payload_id := "ghost"; payload_pin := "4321" |} |}
  else if String.eqb token "reset.u1.4321.forged" then
    {| isBearerToken := true; isSignatureValid := String.eqb "forged";
       payload := Some {| payload_type := "reset"; payload_id := "u1"; payload_pin := "4321" |} |}
  else
    {| isBearerToken := false; isSignatureValid := fun _ => false; payload := None |}.

(** [u1] has a secret, [u2] has none, nobody else exists. *)
Definition world : World :=
  {| db := <["u1" := {| row_email := "u1@om.io"; row_otpToken := Some "JBSW" |}]>
             (<["u2" := {| row_email := "u2@om.io"; row_otpToken := None |}]> ∅);
     now := 0; entropy := 0; history := [] |}.

Definition request (hs : list (string * string)) : Request :=
  {| headers := Some (list_to_map hs); processedDynamicPayloadDTO := None |}.

End Demo.

(** * Properties *)

(** Unfold the monad down to functions on states. *)
Ltac run :=
  unfold mbind, M_bind, mret, M_ret, bind, ret, throw, try_catch, get, modify, lift;
  cbn [fst snd].

Ltac run_in H :=
  unfold mbind, M_bind, mret, M_ret, bind, ret, throw, try_catch, get, modify, lift in H;
  cbn [fst snd] in H.

(** ** OtpService *)

Section OtpServiceFacts.

Variable authenticator_check : Z -> string -> option string -> Completion bool.
Variable authenticator_generateSecret : nat -> string.
Variable authenticator_keyuri : string -> string -> string -> string.
Variable appName : string.

Abbreviation createOTP :=
  (OtpService.createOTP authenticator_generateSecret authenticator_keyuri appName).
Abbreviation updateOTP :=
  (OtpService.updateOTP authenticator_check authenticator_generateSecret
     authenticator_keyuri appName).
Abbreviation validateOTP := (OtpService.validateOTP authenticator_check).
Abbreviation removeOTP := (OtpService.removeOTP authenticator_check).

(** What [validateOTP] does, case by case. *)
Lemma validateOTP_found (loginId token : string) (w : World) (row : LoginRow) :
  db w !! loginId = Some row ->
  validateOTP loginId token w =
    (match authenticator_check (now w) token (row_otpToken row) with
     | Returns b => Returns (Some b, None)
     | Throws e => Throws e
     end, log_call (ValidateOTP loginId token) w).
Proof.
  intros Hrow. unfold OtpService.validateOTP, Repository.findOne, OtpService.check. run.
  cbn [db log_call now]. rewrite Hrow. cbn.
  destruct (authenticator_check (now w) token (row_otpToken row)); reflexivity.
Qed.

Lemma validateOTP_missing (loginId token : string) (w : World) :
  db w !! loginId = None ->
  validateOTP loginId token w =
    (Throws (TypeError "Cannot read properties of null (reading 'otpToken')"),
     log_call (ValidateOTP loginId token) w).
Proof.
  intros Hrow. unfold OtpService.validateOTP, Repository.findOne, OtpService.check. run.
  cbn [db log_call]. rewrite Hrow. reflexivity.
Qed.

Lemma removeOTP_found (loginId token : string) (w : World) (row : LoginRow) :
  db w !! loginId = Some row ->
  removeOTP loginId token w =
    (match authenticator_check (now w) token (row_otpToken row) with
     | Returns true => Returns (Some true, None)
     | Returns false => Returns (None, Some TOKEN_OTP_INVALID)
     | Throws e => Throws e
     end, log_call (RemoveOTP loginId token) w).
Proof.
  intros Hrow. unfold OtpService.removeOTP, Repository.findOne, OtpService.check. run.
  cbn [db log_call now]. rewrite Hrow. cbn.
  destruct (authenticator_check (now w) token (row_otpToken row)) as [[|]|]; reflexivity.
Qed.

Lemma removeOTP_missing (loginId token : string) (w : World) :
  db w !! loginId = None ->
  removeOTP loginId token w =
    (Throws (TypeError "Cannot read properties of null (reading 'otpToken')"),
     log_call (RemoveOTP loginId token) w).
Proof.
  intros Hrow. unfold OtpService.removeOTP, Repository.findOne, OtpService.check. run.
  cbn [db log_call]. rewrite Hrow. reflexivity.
Qed.

(** [removeOTP] never writes to the login table: whatever it is given, the
    table afterwards is the table before. *)
Lemma removeOTP_db (loginId token : string) (w : World) :
  db (snd (removeOTP loginId token w)) = db w.
Proof.
  destruct (db w !! loginId) as [row|] eqn:Hrow.
  - rewrite (removeOTP_found _ _ _ _ Hrow). reflexivity.
  - rewrite (removeOTP_missing _ _ _ Hrow). reflexivity.
Qed.

(** [validateOTP] is a check: it never writes to the login table. *)
Lemma validateOTP_db (loginId token : string) (w : World) :
  db (snd (validateOTP loginId token w)) = db w.
Proof.
  destruct (db w !! loginId) as [row|] eqn:Hrow.
  - rewrite (validateOTP_found _ _ _ _ Hrow). reflexivity.
  - rewrite (validateOTP_missing _ _ _ Hrow). reflexivity.
Qed.

(** C1, as the code has it: for a login record whose [otpToken] is [null],
    [validateOTP] hands the [null] secret to [authenticator.check] as it
    is.  It returns [[b, null]] when the check returns [b] (the invalid
    result [[false, null]] when the check returns [false]) and raises the
    check's fault when the check throws; the login table is not written. *)
Theorem validateOTP_null_secret (loginId token : string) (w : World) (row : LoginRow) :
  db w !! loginId = Some row ->
  row_otpToken row = None ->
  fst (validateOTP loginId token w) =
    match authenticator_check (now w) token None with
    | Returns b => Returns (Some b, None)
    | Throws e => Throws e
    end
  /\ db (snd (validateOTP loginId token w)) = db w.
Proof.
  intros Hrow Hnull. rewrite (validateOTP_found _ _ _ _ Hrow), Hnull. auto.
Qed.

(** C5: for a login that already has an [otpToken], [createOTP] returns
    [[null, LOGIN_ALREADY_HAS_OTP]]; the login table, the stored secret in
    it, and the random generator are as they were (nothing is generated,
    nothing is saved). *)
Theorem createOTP_already_has_otp (loginId : string) (w : World) (row : LoginRow) (s : string) :
  db w !! loginId = Some row ->
  row_otpToken row = Some s ->
  fst (createOTP loginId w) = Returns (None, Some LOGIN_ALREADY_HAS_OTP)
  /\ db (snd (createOTP loginId w)) = db w
  /\ row_otpToken <$> db (snd (createOTP loginId w)) !! loginId = Some (Some s)
  /\ entropy (snd (createOTP loginId w)) = entropy w.
Proof.
  intros Hrow Hs.
  assert (createOTP loginId w =
            (Returns (None, Some LOGIN_ALREADY_HAS_OTP), log_call (CreateOTP loginId) w)) as ->.
  { unfold OtpService.createOTP, Repository.findOne. run.
    cbn [db log_call]. rewrite Hrow. cbn. rewrite Hs. reflexivity. }
  cbn. rewrite Hrow. cbn. rewrite Hs. auto.
Qed.

(** C6, as the code has it: for an existing login and a proof code that
    [authenticator.check] does not find valid against the stored secret,
    [updateOTP] and [removeOTP] leave the login table and the random
    generator as they were and do not succeed.  When the check returns
    [false] both return [[null, TOKEN_OTP_INVALID]]; when the check throws
    (as it may on a login whose secret is [null]) both raise the check's
    fault instead of returning an error. *)
Theorem invalid_proof_code_no_mutation
    (loginId token : string) (w : World) (row : LoginRow) :
  db w !! loginId = Some row ->
  authenticator_check (now w) token (row_otpToken row) <> Returns true ->
  (fst (updateOTP loginId token w)
     = match authenticator_check (now w) token (row_otpToken row) with
       | Returns _ => Returns (None, Some TOKEN_OTP_INVALID)
       | Throws e => Throws e
       end
   /\ db (snd (updateOTP loginId token w)) = db w
   /\ entropy (snd (updateOTP loginId token w)) = entropy w)
  /\ (fst (removeOTP loginId token w)
        = match authenticator_check (now w) token (row_otpToken row) with
          | Returns _ => Returns (None, Some TOKEN_OTP_INVALID)
          | Throws e => Throws e
          end
      /\ db (snd (removeOTP loginId token w)) = db w
      /\ entropy (snd (removeOTP loginId token w)) = entropy w).
Proof.
  intros Hrow Hbad. split.
  - assert (updateOTP loginId token w =
              (match authenticator_check (now w) token (row_otpToken row) with
               | Returns _ => Returns (None, Some TOKEN_OTP_INVALID)
               | Throws e => Throws e
               end, log_call (UpdateOTP loginId token) w)) as ->.
    { unfold OtpService.updateOTP, Repository.findOne, OtpService.check. run.
      cbn [db log_call now]. rewrite Hrow. cbn.
      destruct (authenticator_check (now w) token (row_otpToken row)) as [[|]|];
        [congruence|reflexivity..]. }
    auto.
  - rewrite (removeOTP_found _ _ _ _ Hrow).
    destruct (authenticator_check (now w) token (row_otpToken row)) as [[|]|];
      [congruence|auto..].
Qed.

End OtpServiceFacts.

(** ** AuthenticationJWTDynamic *)

Section GuardFacts.

Variable authenticator_check : Z -> string -> option string -> Completion bool.
Variable validatePin : string -> string -> bool.
Variable newBearerTokenProcessor : string -> BearerTokenProcessor.
Variable secondarySecret : string.

Abbreviation validateOtpToken :=
  (AuthenticationJWTDynamic.validateOtpToken authenticator_check).
Abbreviation validateEmailToken :=
  (AuthenticationJWTDynamic.validateEmailToken validatePin).
Abbreviation checkEmailPin := (AuthenticationJWTDynamic.checkEmailPin validatePin).
Abbreviation checkOtpPin := (AuthenticationJWTDynamic.checkOtpPin authenticator_check).
Abbreviation requirePin :=
  (AuthenticationJWTDynamic.requirePin authenticator_check validatePin).
Abbreviation guarded :=
  (AuthenticationJWTDynamic.guarded authenticator_check validatePin
     newBearerTokenProcessor secondarySecret).
Abbreviation canActivate :=
  (AuthenticationJWTDynamic.canActivate authenticator_check validatePin
     newBearerTokenProcessor secondarySecret).
Abbreviation emailVerdict := (Outcome.emailVerdict validatePin).
Abbreviation otpVerdict := (Outcome.otpVerdict authenticator_check).
Abbreviation otpAccepted := (Outcome.otpAccepted authenticator_check).
Abbreviation pinSatisfied := (Outcome.pinSatisfied authenticator_check validatePin).
Abbreviation tokenAccepted :=
  (Outcome.tokenAccepted newBearerTokenProcessor secondarySecret).
Abbreviation Authorized :=
  (Outcome.Authorized authenticator_check validatePin newBearerTokenProcessor
     secondarySecret).
Abbreviation Failure :=
  (Outcome.Failure authenticator_check validatePin newBearerTokenProcessor
     secondarySecret).

Lemma validateOtpToken_spec (loginId otp : string) (w : World) :
  validateOtpToken loginId otp w =
    (otpVerdict w loginId otp, log_call (ValidateOTP loginId otp) w).
Proof.
  unfold AuthenticationJWTDynamic.validateOtpToken, Outcome.otpVerdict. run.
  destruct (db w !! loginId) as [row|] eqn:Hrow.
  - rewrite (validateOTP_found _ _ _ _ _ Hrow).
    destruct (authenticator_check (now w) otp (row_otpToken row)) as [[|]|]; reflexivity.
  - rewrite (validateOTP_missing _ _ _ _ Hrow). reflexivity.
Qed.

Lemma checkEmailPin_spec (pin : string) (req : Request) (w : World) (p : Payload) :
  processedDynamicPayloadDTO req = Some p ->
  checkEmailPin pin (req, w) = (emailVerdict (payload_pin p) pin, (req, w)).
Proof.
  intros Hdto.
  unfold AuthenticationJWTDynamic.checkEmailPin, AuthenticationJWTDynamic.read_dto,
    AuthenticationJWTDynamic.validateEmailToken, Outcome.emailVerdict. run.
  rewrite Hdto. cbn. destruct (validatePin (payload_pin p) pin); reflexivity.
Qed.

Lemma checkOtpPin_spec (otp : string) (req : Request) (w : World) (p : Payload) :
  processedDynamicPayloadDTO req = Some p ->
  checkOtpPin otp (req, w) =
    (otpVerdict w (payload_id p) otp, (req, log_call (ValidateOTP (payload_id p) otp) w)).
Proof.
  intros Hdto.
  unfold AuthenticationJWTDynamic.checkOtpPin, AuthenticationJWTDynamic.read_dto. run.
  rewrite Hdto. cbn. rewrite validateOtpToken_spec. reflexivity.
Qed.

Lemma otpVerdict_true (w : World) (loginId otp : string) :
  otpVerdict w loginId otp = Returns true <-> otpAccepted w loginId otp.
Proof.
  unfold Outcome.otpVerdict, Outcome.otpAccepted. split.
  - destruct (db w !! loginId) as [row|]; [|discriminate].
    destruct (authenticator_check (now w) otp (row_otpToken row)) as [[|]|] eqn:Hc;
      [|discriminate..].
    intros _. exists row. auto.
  - intros (row & -> & ->). reflexivity.
Qed.

Lemma otpVerdict_never_false (w : World) (loginId otp : string) :
  otpVerdict w loginId otp <> Returns false.
Proof.
  unfold Outcome.otpVerdict.
  destruct (db w !! loginId) as [row|]; [|discriminate].
  destruct (authenticator_check (now w) otp (row_otpToken row)) as [[|]|]; discriminate.
Qed.

Lemma emailVerdict_true (stored pin : string) :
  emailVerdict stored pin = Returns true <-> validatePin stored pin = true.
Proof. unfold Outcome.emailVerdict. destruct (validatePin stored pin); split; congruence. Qed.

Lemma emailVerdict_returns (stored pin : string) (b : bool) :
  emailVerdict stored pin = Returns b -> validatePin stored pin = true.
Proof. unfold Outcome.emailVerdict. destruct (validatePin stored pin); congruence. Qed.

Lemma emailVerdict_throws (stored pin : string) (e : Exception) :
  emailVerdict stored pin = Throws e -> validatePin stored pin = false.
Proof. unfold Outcome.emailVerdict. destruct (validatePin stored pin); congruence. Qed.

Lemma otpVerdict_returns (w : World) (loginId otp : string) (b : bool) :
  otpVerdict w loginId otp = Returns b -> otpAccepted w loginId otp.
Proof.
  intros Hb. apply otpVerdict_true. destruct b; [exact Hb|].
  exfalso. exact (otpVerdict_never_false _ _ _ Hb).
Qed.

(** The [switch], once the payload is attached to the request. *)
Lemma requirePin_allow (rp : RequiredPin) (pin otp : option string)
    (req : Request) (w : World) (p : Payload) :
  processedDynamicPayloadDTO req = Some p ->
  (exists b, fst (requirePin rp pin otp (req, w)) = Returns b)
  <-> pinSatisfied rp p pin otp w.
Proof.
  intros Hdto. unfold AuthenticationJWTDynamic.requirePin, Outcome.pinSatisfied.
  destruct rp as [| | |other].
  - (* ANY *)
    destruct (truthy pin) as [v|] eqn:Hpin, (truthy otp) as [o|] eqn:Hotp; run.
    + rewrite (checkEmailPin_spec _ _ _ _ Hdto).
      destruct (emailVerdict (payload_pin p) v) as [b|e] eqn:Hv.
      * rewrite (checkOtpPin_spec _ _ _ _ Hdto). cbn [fst].
        apply emailVerdict_returns in Hv. split.
        -- intros [b' Hb']. split; [left; discriminate|]. split.
           ++ intros v' [= <-]. exact Hv.
           ++ intros o' [= <-]. exact (otpVerdict_returns _ _ _ _ Hb').
        -- intros (_ & _ & Ho). exists true. apply otpVerdict_true. apply Ho. reflexivity.
      * cbn [fst]. apply emailVerdict_throws in Hv.
        split; [intros [b' Hb']; discriminate|].
        intros (_ & Hv' & _). specialize (Hv' v eq_refl). congruence.
    + rewrite (checkEmailPin_spec _ _ _ _ Hdto).
      destruct (emailVerdict (payload_pin p) v) as [b|e] eqn:Hv; cbn [fst].
      * apply emailVerdict_returns in Hv. split; [|intros _; eauto].
        intros _. split; [left; discriminate|]. split.
        -- intros v' [= <-]. exact Hv.
        -- intros o' [=].
      * apply emailVerdict_throws in Hv. split; [intros [b' Hb']; discriminate|].
        intros (_ & Hv' & _). specialize (Hv' v eq_refl). congruence.
    + rewrite (checkOtpPin_spec _ _ _ _ Hdto). cbn [fst]. split.
      * intros [b' Hb']. split; [right; discriminate|]. split.
        -- intros v' [=].
        -- intros o' [= <-]. exact (otpVerdict_returns _ _ _ _ Hb').
      * intros (_ & _ & Ho). exists true. apply otpVerdict_true. apply Ho. reflexivity.
    + split; [intros [b' Hb']; discriminate|]. intros ([H|H] & _); congruence.
  - (* ONLY_EMAIL *)
    destruct (truthy pin) as [v|] eqn:Hpin; run.
    + rewrite (checkEmailPin_spec _ _ _ _ Hdto). cbn [fst]. split.
      * intros [b Hb]. exists v. split; [reflexivity|]. exact (emailVerdict_returns _ _ _ Hb).
      * intros (v' & [= <-] & Hv). exists true. apply emailVerdict_true. exact Hv.
    + split; [intros [b Hb]; discriminate|]. intros (v' & [=] & _).
  - (* ONLY_OTP *)
    destruct (truthy otp) as [o|] eqn:Hotp; run.
    + rewrite (checkOtpPin_spec _ _ _ _ Hdto). cbn [fst]. split.
      * intros [b Hb]. exists o. split; [reflexivity|]. exact (otpVerdict_returns _ _ _ _ Hb).
      * intros (o' & [= <-] & Ho). exists true. apply otpVerdict_true. exact Ho.
    + split; [intros [b Hb]; discriminate|]. intros (o' & [=] & _).
  - (* any other value: [default] *)
    run. split; eauto.
Qed.

(** Past the token and step checks, the guard attaches the payload and runs
    the [switch]. *)
Lemma guarded_accepted (params : Policy) (req : Request) (w : World)
    (hs : gmap string string) (p : Payload) :
  headers req = Some hs ->
  tokenAccepted params hs p ->
  guarded params (req, w) =
    (requirePin (requiredPin params) (hs !! "x-email-pin") (hs !! "x-otp-pin") ;; mret true)
      (set_processedDynamicPayloadDTO (Some p) req, w).
Proof.
  intros Hhs (token & Htok & Hbearer & Hsig & Hpayload & Htype).
  unfold AuthenticationJWTDynamic.guarded. run.
  rewrite Hhs, Htok. cbn zeta. rewrite Hbearer, Hsig, Hpayload. cbn.
  rewrite Htype. rewrite bool_decide_eq_true_2 by reflexivity. reflexivity.
Qed.

(** A request the body of the [try] lets through has passed the token and
    step checks. *)
Lemma guarded_returns_inv (params : Policy) (req : Request) (w : World) (b : bool) :
  fst (guarded params (req, w)) = Returns b ->
  exists hs p, headers req = Some hs /\ tokenAccepted params hs p.
Proof.
  unfold AuthenticationJWTDynamic.guarded. run.
  destruct (headers req) as [hs|] eqn:Hhs; [|discriminate].
  destruct (truthy (hs !! "x-temporary-authorization")) as [token|] eqn:Htok; [|discriminate].
  cbn zeta.
  destruct (isBearerToken (newBearerTokenProcessor token)) eqn:Hbearer; [|discriminate].
  destruct (isSignatureValid (newBearerTokenProcessor token) secondarySecret) eqn:Hsig;
    [|discriminate].
  cbn [negb].
  destruct (bool_decide (Some (step params)
                         = payload_type <$> payload (newBearerTokenProcessor token))) eqn:Hstep;
    [|discriminate].
  apply bool_decide_eq_true_1 in Hstep.
  destruct (payload (newBearerTokenProcessor token)) as [p|] eqn:Hpayload; [|discriminate].
  injection Hstep as Hstep.
  intros _. exists hs, p. split; [reflexivity|]. exists token. auto.
Qed.

(** Whatever the body of the [try] returns is [true]. *)
Lemma guarded_returns_true (params : Policy) (rw : Request * World) (b : bool) :
  fst (guarded params rw) = Returns b -> b = true.
Proof.
  unfold AuthenticationJWTDynamic.guarded. run.
  destruct (headers (fst rw)) as [hs|]; [|discriminate].
  destruct (truthy (hs !! "x-temporary-authorization")) as [token|]; [|discriminate].
  cbn zeta.
  destruct (negb (isBearerToken (newBearerTokenProcessor token))); [discriminate|].
  destruct (negb (isSignatureValid (newBearerTokenProcessor token) secondarySecret));
    [discriminate|].
  destruct (negb (bool_decide _)); [discriminate|].
  destruct (requirePin _ _ _ _) as [[b'|e] rw']; cbn [fst]; congruence.
Qed.

(** [canActivate] under a declared policy: the [catch] turns every throw of
    the body into the one [HttpException]. *)
Lemma canActivate_declared (params : Policy) (rw : Request * World) :
  canActivate (Some params) rw =
    match guarded params rw with
    | (Returns b, rw') => (Returns b, rw')
    | (Throws e, rw') =>
        (Throws (HttpException "Not authorized for perform action" UNAUTHORIZED (message e)),
         rw')
    end.
Proof. reflexivity. Qed.

Lemma allow_or_unauthorized (params : option Policy) (rw : Request * World) :
  fst (canActivate params rw) = Returns true
  \/ Outcome.Unauthorized (fst (canActivate params rw)).
Proof.
  destruct params as [params|]; [|left; reflexivity].
  rewrite canActivate_declared.
  destruct (guarded params rw) as [[b|e] rw'] eqn:Hg; cbn [fst].
  - left. f_equal. apply (guarded_returns_true params rw). rewrite Hg. reflexivity.
  - right. exists (message e). reflexivity.
Qed.

Lemma unauthorized_not_allowed (c : Completion bool) :
  Outcome.Unauthorized c -> c <> Returns true.
Proof. intros [cause ->]. discriminate. Qed.

(** The guard allows a request under a declared policy exactly when the
    request is authorized by it. *)
Lemma allow_iff (params : Policy) (req : Request) (w : World) :
  fst (canActivate (Some params) (req, w)) = Returns true <-> Authorized params req w.
Proof.
  rewrite canActivate_declared. split.
  - intros Hallow.
    assert (fst (guarded params (req, w)) = Returns true) as Hg.
    { destruct (guarded params (req, w)) as [[b|e] rw']; cbn [fst] in *; congruence. }
    destruct (guarded_returns_inv _ _ _ _ Hg) as (hs & p & Hhs & Htok).
    exists hs, p. split; [exact Hhs|]. split; [exact Htok|].
    rewrite (guarded_accepted _ _ _ _ _ Hhs Htok) in Hg. run_in Hg.
    apply (requirePin_allow _ _ _ (set_processedDynamicPayloadDTO (Some p) req) w p);
      [reflexivity|].
    destruct (requirePin _ _ _ _) as [[b|e] rw']; cbn [fst] in *; [eauto|discriminate].
  - intros (hs & p & Hhs & Htok & Hpin).
    rewrite (guarded_accepted _ _ _ _ _ Hhs Htok). run.
    apply (requirePin_allow _ _ _ (set_processedDynamicPayloadDTO (Some p) req) w p) in Hpin;
      [|reflexivity].
    destruct Hpin as [b Hb].
    destruct (requirePin _ _ _ _) as [[b'|e] rw']; cbn [fst] in *; [reflexivity|discriminate].
Qed.

Lemma rejected_iff (params : Policy) (req : Request) (w : World) :
  Outcome.Unauthorized (fst (canActivate (Some params) (req, w)))
  <-> ~ Authorized params req w.
Proof.
  split.
  - intros Hun Hauth. apply allow_iff in Hauth. exact (unauthorized_not_allowed _ Hun Hauth).
  - intros Hnot. destruct (allow_or_unauthorized (Some params) (req, w)) as [Hallow|Hun];
      [|exact Hun].
    exfalso. apply Hnot, allow_iff, Hallow.
Qed.

(** No request that fails in one of the listed ways is authorized. *)
Lemma Failure_not_Authorized (params : Policy) (req : Request) (w : World) :
  Failure params req w -> ~ Authorized params req w.
Proof.
  intros Hfail (hs' & p' & Hhs' & (token' & Htok' & Hbearer & Hsig & Hpayload & Htype) & Hpin).
  unfold Outcome.pinSatisfied in Hpin.
  destruct Hfail as
    [ Hhs | hs Hhs Htok | hs token Hhs Htok Hb | hs token Hhs Htok Hs
    | hs token Hhs Htok Hstep | hs Hhs Hrp Hno | hs Hhs Hrp Hno | hs Hhs Hrp Hno1 Hno2
    | hs token p pin Hhs Htok Hp Hrp Hsome Hbad
    | hs token p otp row Hhs Htok Hp Hrp Hsome Hrow Hbad
    | hs token p otp Hhs Htok Hp Hrp Hsome Hrow ];
    rewrite Hhs in Hhs'; try discriminate; injection Hhs' as <-;
    try (rewrite Htok in Htok'; try discriminate; injection Htok' as <-).
  - congruence.
  - congruence.
  - apply Hstep. rewrite Hpayload. cbn. congruence.
  - rewrite Hrp in Hpin. destruct Hpin as (v & Hv & _). congruence.
  - rewrite Hrp in Hpin. destruct Hpin as (v & Hv & _). congruence.
  - rewrite Hrp in Hpin. destruct Hpin as ([H|H] & _); congruence.
  - rewrite Hp in Hpayload. injection Hpayload as <-.
    destruct Hrp as [Hrp|Hrp]; rewrite Hrp in Hpin.
    + destruct Hpin as (v & Hv & Hok). congruence.
    + destruct Hpin as (_ & Hok & _). specialize (Hok pin Hsome). congruence.
  - rewrite Hp in Hpayload. injection Hpayload as <-.
    assert (otpAccepted w (payload_id p) otp) as (row' & Hrow' & Hok).
    { destruct Hrp as [Hrp|Hrp]; rewrite Hrp in Hpin.
      - destruct Hpin as (v & Hv & Hok). congruence.
      - destruct Hpin as (_ & _ & Hok). exact (Hok otp Hsome). }
    congruence.
  - rewrite Hp in Hpayload. injection Hpayload as <-.
    assert (otpAccepted w (payload_id p) otp) as (row' & Hrow' & Hok).
    { destruct Hrp as [Hrp|Hrp]; rewrite Hrp in Hpin.
      - destruct Hpin as (v & Hv & Hok). congruence.
      - destruct Hpin as (_ & _ & Hok). exact (Hok otp Hsome). }
    congruence.
Qed.

(** The code is either accepted for the login or fails to be in one of two
    ways: the login is not there, or the authenticator does not say [true]. *)
Lemma otpAccepted_or_not (w : World) (loginId otp : string) :
  otpAccepted w loginId otp
  \/ db w !! loginId = None
  \/ exists row, db w !! loginId = Some row
               /\ authenticator_check (now w) otp (row_otpToken row) <> Returns true.
Proof.
  unfold Outcome.otpAccepted.
  destruct (db w !! loginId) as [row|]; [|auto].
  destruct (authenticator_check (now w) otp (row_otpToken row)) as [[|]|] eqn:Hc.
  - left. eauto.
  - right. right. exists row. split; [reflexivity|]. congruence.
  - right. right. exists row. split; [reflexivity|]. congruence.
Qed.

(** The list of failures is complete: a request is authorized or fails in
    one of the listed ways. *)
Lemma Authorized_or_Failure (params : Policy) (req : Request) (w : World) :
  Authorized params req w \/ Failure params req w.
Proof.
  destruct (headers req) as [hs|] eqn:Hhs; [|right; apply Outcome.NoHeaders; exact Hhs].
  destruct (truthy (hs !! "x-temporary-authorization")) as [token|] eqn:Htok;
    [|right; eapply Outcome.NoAuthorizationHeader; eassumption].
  destruct (isBearerToken (newBearerTokenProcessor token)) eqn:Hbearer;
    [|right; eapply Outcome.JwtDecodeError; eassumption].
  destruct (isSignatureValid (newBearerTokenProcessor token) secondarySecret) eqn:Hsig;
    [|right; eapply Outcome.JwtSignatureError; eassumption].
  destruct (payload (newBearerTokenProcessor token)) as [p|] eqn:Hpayload;
    [|right; eapply Outcome.InvalidStep; [eassumption..|rewrite Hpayload; discriminate]].
  destruct (decide (payload_type p = step params)) as [Htype|Htype];
    [|right; eapply Outcome.InvalidStep; [eassumption..|rewrite Hpayload; cbn; congruence]].
  assert (tokenAccepted params hs p) as Hacc by (exists token; auto).
  destruct (requiredPin params) as [| | |other] eqn:Hrp.
  - (* ANY *)
    destruct (truthy (hs !! "x-email-pin")) as [v|] eqn:Hpin,
             (truthy (hs !! "x-otp-pin")) as [o|] eqn:Hotp.
    + destruct (validatePin (payload_pin p) v) eqn:Hv;
        [|right; eapply Outcome.InvalidEmailPin; eauto].
      destruct (otpAccepted_or_not w (payload_id p) o) as [Ho|[Ho|(row & Hrow & Ho)]].
      * left. exists hs, p. split; [exact Hhs|]. split; [exact Hacc|].
        rewrite Hrp. cbn. rewrite Hpin, Hotp.
        split; [left; discriminate|]. split; intros ? [= <-]; assumption.
      * right. eapply Outcome.LoginNotFound; eauto.
      * right. eapply Outcome.InvalidOtpPin; eauto.
    + destruct (validatePin (payload_pin p) v) eqn:Hv;
        [|right; eapply Outcome.InvalidEmailPin; eauto].
      left. exists hs, p. split; [exact Hhs|]. split; [exact Hacc|].
      rewrite Hrp. cbn. rewrite Hpin, Hotp.
      split; [left; discriminate|]. split; [intros ? [= <-]; assumption|intros ? [=]].
    + destruct (otpAccepted_or_not w (payload_id p) o) as [Ho|[Ho|(row & Hrow & Ho)]].
      * left. exists hs, p. split; [exact Hhs|]. split; [exact Hacc|].
        rewrite Hrp. cbn. rewrite Hpin, Hotp.
        split; [right; discriminate|]. split; [intros ? [=]|intros ? [= <-]; assumption].
      * right. eapply Outcome.LoginNotFound; eauto.
      * right. eapply Outcome.InvalidOtpPin; eauto.
    + right. eapply Outcome.NoPin; eauto.
  - (* ONLY_EMAIL *)
    destruct (truthy (hs !! "x-email-pin")) as [v|] eqn:Hpin;
      [|right; eapply Outcome.NoEmailPin; eauto].
    destruct (validatePin (payload_pin p) v) eqn:Hv;
      [|right; eapply Outcome.InvalidEmailPin; eauto].
    left. exists hs, p. split; [exact Hhs|]. split; [exact Hacc|].
    rewrite Hrp. cbn. rewrite Hpin. eauto.
  - (* ONLY_OTP *)
    destruct (truthy (hs !! "x-otp-pin")) as [o|] eqn:Hotp;
      [|right; eapply Outcome.NoOtpPin; eauto].
    destruct (otpAccepted_or_not w (payload_id p) o) as [Ho|[Ho|(row & Hrow & Ho)]].
    + left. exists hs, p. split; [exact Hhs|]. split; [exact Hacc|].
      rewrite Hrp. cbn. rewrite Hotp. eauto.
    + right. eapply Outcome.LoginNotFound; eauto.
    + right. eapply Outcome.InvalidOtpPin; eauto.
  - (* [default] *)
    left. exists hs, p. split; [exact Hhs|]. split; [exact Hacc|]. rewrite Hrp. exact I.
Qed.

(** C4: a request that carries a dynamic token whose payload [type] is not
    the [step] of the declared policy is rejected, whatever the signature
    check says and whatever pins come with it. *)
Theorem step_mismatch_rejected (params : Policy) (req : Request) (w : World)
    (hs : gmap string string) (token : string) (p : Payload) :
  headers req = Some hs ->
  truthy (hs !! "x-temporary-authorization") = Some token ->
  payload (newBearerTokenProcessor token) = Some p ->
  payload_type p <> step params ->
  Outcome.Unauthorized (fst (canActivate (Some params) (req, w))).
Proof.
  intros Hhs Htok Hpayload Hstep. apply rejected_iff, Failure_not_Authorized.
  eapply Outcome.InvalidStep; [eassumption..|]. rewrite Hpayload. cbn. congruence.
Qed.

(** C7: under [requiredPin = ANY], for a request that passes the token and
    step checks and supplies the email-pin header and no OTP header, the
    guard allows the request if and only if [validatePin] accepts the
    supplied pin against the payload's pin, and rejects it as unauthorized
    otherwise; [validateOTP] is not invoked: the world of the OTP service,
    its call history included, is what it was. *)
Theorem any_with_email_pin_only (params : Policy) (req : Request) (w : World)
    (hs : gmap string string) (p : Payload) (pin : string) :
  requiredPin params = ANY ->
  headers req = Some hs ->
  tokenAccepted params hs p ->
  truthy (hs !! "x-email-pin") = Some pin ->
  truthy (hs !! "x-otp-pin") = None ->
  (fst (canActivate (Some params) (req, w)) = Returns true
   <-> validatePin (payload_pin p) pin = true)
  /\ (validatePin (payload_pin p) pin = false ->
      Outcome.Unauthorized (fst (canActivate (Some params) (req, w))))
  /\ snd (snd (canActivate (Some params) (req, w))) = w
  /\ history (snd (snd (canActivate (Some params) (req, w)))) = history w.
Proof.
  intros Hrp Hhs Hacc Hpin Hotp.
  assert (canActivate (Some params) (req, w) =
            (match emailVerdict (payload_pin p) pin with
             | Returns b => Returns true
             | Throws e =>
                 Throws (HttpException "Not authorized for perform action" UNAUTHORIZED
                           (message e))
             end, (set_processedDynamicPayloadDTO (Some p) req, w))) as ->.
  { rewrite canActivate_declared, (guarded_accepted _ _ _ _ _ Hhs Hacc), Hrp.
    unfold AuthenticationJWTDynamic.requirePin. rewrite Hpin, Hotp. run.
    rewrite (checkEmailPin_spec _ _ _ p) by reflexivity.
    destruct (emailVerdict (payload_pin p) pin); reflexivity. }
  cbn [fst snd]. unfold Outcome.emailVerdict.
  destruct (validatePin (payload_pin p) pin); cbn.
  - repeat split; auto; discriminate.
  - repeat split; auto; try discriminate. intros _. eexists. reflexivity.
Qed.

(** C8: under [requiredPin = ONLY_OTP], a request with no OTP header (absent,
    or empty) is rejected, whatever email pin it supplies. *)
Theorem only_otp_without_otp_rejected (params : Policy) (req : Request) (w : World)
    (hs : gmap string string) (pin : string) :
  requiredPin params = ONLY_OTP ->
  headers req = Some hs ->
  hs !! "x-email-pin" = Some pin ->
  truthy (hs !! "x-otp-pin") = None ->
  Outcome.Unauthorized (fst (canActivate (Some params) (req, w))).
Proof.
  intros Hrp Hhs _ Hotp. apply rejected_iff, Failure_not_Authorized.
  eapply Outcome.NoOtpPin; eassumption.
Qed.

(** C9: under a declared policy the guard has two outcomes only: it returns
    [true], or it throws the one [HttpException] with status 401 and the
    fixed response.  Every listed failure (headers or token missing, token
    malformed, signature invalid, step mismatch, required pin missing, email
    pin or OTP not valid, login not found) ends in that exception, and so
    does nothing else: a request that does not fail is allowed. *)
Theorem guard_outcomes (params : Policy) (req : Request) (w : World) :
  (fst (canActivate (Some params) (req, w)) = Returns true
   \/ Outcome.Unauthorized (fst (canActivate (Some params) (req, w))))
  /\ (Failure params req w <->
      Outcome.Unauthorized (fst (canActivate (Some params) (req, w))))
  /\ (~ Failure params req w -> fst (canActivate (Some params) (req, w)) = Returns true).
Proof.
  split; [apply allow_or_unauthorized|]. split; [split|].
  - intros Hfail. apply rejected_iff, Failure_not_Authorized, Hfail.
  - intros Hun. destruct (Authorized_or_Failure params req w) as [Hauth|Hfail];
      [|exact Hfail].
    exfalso. apply rejected_iff in Hun. exact (Hun Hauth).
  - intros Hnot. destruct (Authorized_or_Failure params req w) as [Hauth|Hfail];
      [|contradiction].
    apply allow_iff, Hauth.
Qed.

(** C10: under a declared policy whose [requiredPin] is none of [ONLY_EMAIL],
    [ONLY_OTP] and [ANY], a request that passes the token and step checks is
    allowed: the [switch] falls to [default], no pin header is looked at, no
    validator is called, and the world of the OTP service is untouched. *)
Theorem other_required_pin_allows (params : Policy) (req : Request) (w : World)
    (hs : gmap string string) (p : Payload) :
  requiredPin params <> ONLY_EMAIL ->
  requiredPin params <> ONLY_OTP ->
  requiredPin params <> ANY ->
  headers req = Some hs ->
  tokenAccepted params hs p ->
  canActivate (Some params) (req, w) =
    (Returns true, (set_processedDynamicPayloadDTO (Some p) req, w)).
Proof.
  intros Hne Hno Hna Hhs Hacc.
  rewrite canActivate_declared, (guarded_accepted _ _ _ _ _ Hhs Hacc).
  destruct (requiredPin params) as [| | |other]; try contradiction. reflexivity.
Qed.

End GuardFacts.

(** ** OtpService: provisioning and rotation *)

Section OtpServiceLifecycle.

Variable authenticator_check : Z -> string -> option string -> Completion bool.
Variable authenticator_generateSecret : nat -> string.
Variable authenticator_keyuri : string -> string -> string -> string.
Variable appName : string.

Abbreviation createOTP :=
  (OtpService.createOTP authenticator_generateSecret authenticator_keyuri appName).
Abbreviation updateOTP :=
  (OtpService.updateOTP authenticator_check authenticator_generateSecret
     authenticator_keyuri appName).
Abbreviation validateOTP := (OtpService.validateOTP authenticator_check).
Abbreviation removeOTP := (OtpService.removeOTP authenticator_check).

(** The world after [loginId], whose row was [row], is given the next secret
    of the generator by the method that logged [call]. *)
Abbreviation rotated w loginId row call :=
  {| db := <[loginId := {| row_email := row_email row;
                           row_otpToken := Some (authenticator_generateSecret (entropy w)) |}]>
             (db w);
     now := now w;
     entropy := S (entropy w);
     history := history w ++ [call] |}.

Abbreviation fresh w row :=
  {| secret := authenticator_generateSecret (entropy w);
     keyUri := authenticator_keyuri (row_email row) appName
                 (authenticator_generateSecret (entropy w)) |}.

Lemma createOTP_missing (loginId : string) (w : World) :
  db w !! loginId = None ->
  createOTP loginId w = (Returns (None, Some LOGIN_NOT_FOUND), log_call (CreateOTP loginId) w).
Proof.
  intros Hrow. unfold OtpService.createOTP, Repository.findOne. run.
  cbn [db log_call]. rewrite Hrow. reflexivity.
Qed.

Lemma createOTP_taken (loginId : string) (w : World) (row : LoginRow) (s : string) :
  db w !! loginId = Some row ->
  row_otpToken row = Some s ->
  createOTP loginId w =
    (Returns (None, Some LOGIN_ALREADY_HAS_OTP), log_call (CreateOTP loginId) w).
Proof.
  intros Hrow Hs. unfold OtpService.createOTP, Repository.findOne. run.
  cbn [db log_call]. rewrite Hrow. cbn. rewrite Hs. reflexivity.
Qed.

Lemma createOTP_free (loginId : string) (w : World) (row : LoginRow) :
  db w !! loginId = Some row ->
  row_otpToken row = None ->
  createOTP loginId w =
    (Returns (Some (fresh w row), None), rotated w loginId row (CreateOTP loginId)).
Proof.
  intros Hrow Hs.
  unfold OtpService.createOTP, Repository.findOne, Repository.save,
    OtpService.generateSecret. run.
  cbn [db log_call]. rewrite Hrow. cbn. rewrite Hs. reflexivity.
Qed.

Lemma updateOTP_missing (loginId token : string) (w : World) :
  db w !! loginId = None ->
  updateOTP loginId token w =
    (Returns (None, Some LOGIN_NOT_FOUND), log_call (UpdateOTP loginId token) w).
Proof.
  intros Hrow. unfold OtpService.updateOTP, Repository.findOne. run.
  cbn [db log_call]. rewrite Hrow. reflexivity.
Qed.

Lemma updateOTP_found (loginId token : string) (w : World) (row : LoginRow) :
  db w !! loginId = Some row ->
  updateOTP loginId token w =
    match authenticator_check (now w) token (row_otpToken row) with
    | Returns true =>
        (Returns (Some (fresh w row), None), rotated w loginId row (UpdateOTP loginId token))
    | Returns false =>
        (Returns (None, Some TOKEN_OTP_INVALID), log_call (UpdateOTP loginId token) w)
    | Throws e => (Throws e, log_call (UpdateOTP loginId token) w)
    end.
Proof.
  intros Hrow.
  unfold OtpService.updateOTP, Repository.findOne, Repository.save,
    OtpService.generateSecret, OtpService.check. run.
  cbn [db log_call now]. rewrite Hrow. cbn.
  destruct (authenticator_check (now w) token (row_otpToken row)) as [[|]|]; reflexivity.
Qed.

(** [createOTP] for a login that does not exist returns
    [[null, LOGIN_NOT_FOUND]]; no login is created, no secret is drawn. *)
Theorem createOTP_login_not_found (loginId : string) (w : World) :
  db w !! loginId = None ->
  fst (createOTP loginId w) = Returns (None, Some LOGIN_NOT_FOUND)
  /\ db (snd (createOTP loginId w)) = db w
  /\ entropy (snd (createOTP loginId w)) = entropy w.
Proof. intros Hrow. rewrite (createOTP_missing _ _ Hrow). auto. Qed.

(** [createOTP] for a login without a secret draws one secret, stores it on
    that login, and returns it with the key URI made from the login's email,
    the application name and that secret; the email stays, and no other
    login is touched. *)
Theorem createOTP_provisions (loginId : string) (w : World) (row : LoginRow) :
  db w !! loginId = Some row ->
  row_otpToken row = None ->
  fst (createOTP loginId w)
    = Returns (Some {| secret := authenticator_generateSecret (entropy w);
                       keyUri := authenticator_keyuri (row_email row) appName
                                   (authenticator_generateSecret (entropy w)) |}, None)
  /\ db (snd (createOTP loginId w)) !! loginId
     = Some {| row_email := row_email row;
               row_otpToken := Some (authenticator_generateSecret (entropy w)) |}
  /\ (forall other, other <> loginId ->
        db (snd (createOTP loginId w)) !! other = db w !! other)
  /\ entropy (snd (createOTP loginId w)) = S (entropy w).
Proof.
  intros Hrow Hs. rewrite (createOTP_free _ _ _ Hrow Hs). cbn.
  split; [reflexivity|]. split; [apply lookup_insert_eq|]. split; [|reflexivity].
  intros other Hne. apply lookup_insert_ne. congruence.
Qed.

(** Provisioning is not repeated: after a [createOTP] that succeeded, a
    second [createOTP] for the same login returns
    [[null, LOGIN_ALREADY_HAS_OTP]] and the first secret stays stored. *)
Theorem createOTP_twice (loginId : string) (w : World) (row : LoginRow) :
  db w !! loginId = Some row ->
  row_otpToken row = None ->
  fst (createOTP loginId (snd (createOTP loginId w)))
    = Returns (None, Some LOGIN_ALREADY_HAS_OTP)
  /\ db (snd (createOTP loginId (snd (createOTP loginId w))))
     = db (snd (createOTP loginId w))
  /\ row_otpToken <$> db (snd (createOTP loginId (snd (createOTP loginId w)))) !! loginId
     = Some (Some (authenticator_generateSecret (entropy w))).
Proof.
  intros Hrow Hs. rewrite (createOTP_free _ _ _ Hrow Hs). cbn [snd].
  erewrite createOTP_taken;
    [|cbn [db]; apply lookup_insert_eq|reflexivity].
  cbn. rewrite lookup_insert_eq. auto.
Qed.

(** After a [createOTP] that succeeded, [validateOTP] checks the code against
    the secret just stored: it returns what [authenticator.check] says of
    the code and that secret, and throws if the check throws. *)
Theorem createOTP_then_validateOTP (loginId token : string) (w : World) (row : LoginRow) :
  db w !! loginId = Some row ->
  row_otpToken row = None ->
  fst (validateOTP loginId token (snd (createOTP loginId w)))
    = match authenticator_check (now w) token
              (Some (authenticator_generateSecret (entropy w))) with
      | Returns b => Returns (Some b, None)
      | Throws e => Throws e
      end.
Proof.
  intros Hrow Hs. rewrite (createOTP_free _ _ _ Hrow Hs). cbn [snd].
  erewrite validateOTP_found; [|cbn [db]; apply lookup_insert_eq]. reflexivity.
Qed.

(** [updateOTP] for a login that does not exist returns
    [[null, LOGIN_NOT_FOUND]] without calling the authenticator; nothing is
    stored, no secret is drawn. *)
Theorem updateOTP_login_not_found (loginId token : string) (w : World) :
  db w !! loginId = None ->
  fst (updateOTP loginId token w) = Returns (None, Some LOGIN_NOT_FOUND)
  /\ db (snd (updateOTP loginId token w)) = db w
  /\ entropy (snd (updateOTP loginId token w)) = entropy w.
Proof. intros Hrow. rewrite (updateOTP_missing _ _ _ Hrow). auto. Qed.

(** [updateOTP] with a code the authenticator accepts against the stored
    secret draws one new secret, stores it in place of the old one, and
    returns it with its key URI; the email stays, and no other login is
    touched. *)
Theorem updateOTP_rotates (loginId token : string) (w : World) (row : LoginRow) :
  db w !! loginId = Some row ->
  authenticator_check (now w) token (row_otpToken row) = Returns true ->
  fst (updateOTP loginId token w)
    = Returns (Some {| secret := authenticator_generateSecret (entropy w);
                       keyUri := authenticator_keyuri (row_email row) appName
                                   (authenticator_generateSecret (entropy w)) |}, None)
  /\ db (snd (updateOTP loginId token w)) !! loginId
     = Some {| row_email := row_email row;
               row_otpToken := Some (authenticator_generateSecret (entropy w)) |}
  /\ (forall other, other <> loginId ->
        db (snd (updateOTP loginId token w)) !! other = db w !! other)
  /\ entropy (snd (updateOTP loginId token w)) = S (entropy w).
Proof.
  intros Hrow Hok. rewrite (updateOTP_found _ _ _ _ Hrow), Hok. cbn.
  split; [reflexivity|]. split; [apply lookup_insert_eq|]. split; [|reflexivity].
  intros other Hne. apply lookup_insert_ne. congruence.
Qed.

(** When [authenticator.check] throws on the proof code, [updateOTP] throws
    the same fault; nothing is stored and no secret is drawn. *)
Theorem updateOTP_check_throws (loginId token : string) (w : World) (row : LoginRow)
    (e : Exception) :
  db w !! loginId = Some row ->
  authenticator_check (now w) token (row_otpToken row) = Throws e ->
  fst (updateOTP loginId token w) = Throws e
  /\ db (snd (updateOTP loginId token w)) = db w
  /\ entropy (snd (updateOTP loginId token w)) = entropy w.
Proof. intros Hrow He. rewrite (updateOTP_found _ _ _ _ Hrow), He. auto. Qed.

(** After an [updateOTP] that succeeded, [validateOTP] checks the code
    against the new secret, not the one that was replaced. *)
Theorem updateOTP_then_validateOTP (loginId proof token : string) (w : World)
    (row : LoginRow) :
  db w !! loginId = Some row ->
  authenticator_check (now w) proof (row_otpToken row) = Returns true ->
  fst (validateOTP loginId token (snd (updateOTP loginId proof w)))
    = match authenticator_check (now w) token
              (Some (authenticator_generateSecret (entropy w))) with
      | Returns b => Returns (Some b, None)
      | Throws e => Throws e
      end.
Proof.
  intros Hrow Hok. rewrite (updateOTP_found _ _ _ _ Hrow), Hok. cbn [snd].
  erewrite validateOTP_found; [|cbn [db]; apply lookup_insert_eq]. reflexivity.
Qed.

(** [validateOTP] is read-only on every input, found or not, valid or not,
    returning or throwing: the login table, the clock and the generator are
    as they were. *)
Theorem validateOTP_read_only (loginId token : string) (w : World) :
  db (snd (validateOTP loginId token w)) = db w
  /\ now (snd (validateOTP loginId token w)) = now w
  /\ entropy (snd (validateOTP loginId token w)) = entropy w
  /\ history (snd (validateOTP loginId token w))
     = (history w ++ [ValidateOTP loginId token])%list.
Proof.
  destruct (db w !! loginId) as [row|] eqn:Hrow.
  - rewrite (validateOTP_found _ _ _ _ _ Hrow). auto.
  - rewrite (validateOTP_missing _ _ _ _ Hrow). auto.
Qed.

(** No method of the service creates or deletes a login or changes an email:
    on every input and outcome the table has the same ids with the same
    emails afterwards. *)
Theorem logins_and_emails_kept (loginId token : string) (w : World) :
  let same (w' : World) :=
    dom (db w') = dom (db w)
    /\ forall k, row_email <$> db w' !! k = row_email <$> db w !! k in
  same (snd (createOTP loginId w))
  /\ same (snd (updateOTP loginId token w))
  /\ same (snd (validateOTP loginId token w))
  /\ same (snd (removeOTP loginId token w)).
Proof.
  cbv zeta.
  assert (forall row call, db w !! loginId = Some row ->
            dom (db (rotated w loginId row call)) = dom (db w)
            /\ forall k, row_email <$> db (rotated w loginId row call) !! k
                         = row_email <$> db w !! k) as Hrot.
  { intros row call Hrow. cbn [db]. split.
    - apply dom_insert_lookup_L. rewrite Hrow. eauto.
    - intros k. destruct (decide (k = loginId)) as [->|Hne].
      + rewrite lookup_insert_eq, Hrow. reflexivity.
      + rewrite lookup_insert_ne by congruence. reflexivity. }
  repeat split.
  1,2: destruct (db w !! loginId) as [row|] eqn:Hrow;
    [destruct (row_otpToken row) as [s|] eqn:Hs;
     [rewrite (createOTP_taken _ _ _ _ Hrow Hs); reflexivity
     |rewrite (createOTP_free _ _ _ Hrow Hs); now apply Hrot]
    |rewrite (createOTP_missing _ _ Hrow); reflexivity].
  1,2: destruct (db w !! loginId) as [row|] eqn:Hrow;
    [rewrite (updateOTP_found _ _ _ _ Hrow);
     destruct (authenticator_check (now w) token (row_otpToken row)) as [[|]|];
     try reflexivity; now apply Hrot
    |rewrite (updateOTP_missing _ _ _ Hrow); reflexivity].
  1,2: rewrite (validateOTP_db authenticator_check); reflexivity.
  1,2: rewrite (removeOTP_db authenticator_check); reflexivity.
Qed.

End OtpServiceLifecycle.

(** ** AuthenticationJWTDynamic: the policies one by one, and what the guard
    leaves behind *)

Section GuardPolicies.

Variable authenticator_check : Z -> string -> option string -> Completion bool.
Variable validatePin : string -> string -> bool.
Variable newBearerTokenProcessor : string -> BearerTokenProcessor.
Variable secondarySecret : string.

Abbreviation requirePin :=
  (AuthenticationJWTDynamic.requirePin authenticator_check validatePin).
Abbreviation guarded :=
  (AuthenticationJWTDynamic.guarded authenticator_check validatePin
     newBearerTokenProcessor secondarySecret).
Abbreviation canActivate :=
  (AuthenticationJWTDynamic.canActivate authenticator_check validatePin
     newBearerTokenProcessor secondarySecret).
Abbreviation emailVerdict := (Outcome.emailVerdict validatePin).
Abbreviation otpVerdict := (Outcome.otpVerdict authenticator_check).
Abbreviation otpAccepted := (Outcome.otpAccepted authenticator_check).
Abbreviation tokenAccepted :=
  (Outcome.tokenAccepted newBearerTokenProcessor secondarySecret).

Abbreviation unauthorized cause :=
  (Throws (HttpException "Not authorized for perform action" UNAUTHORIZED cause)).

(** What [catch] makes of the end of the body. *)
Abbreviation caught c :=
  (match c with
   | Returns _ => Returns true
   | Throws e => unauthorized (message e)
   end).

Lemma canActivate_accepted (params : Policy) (req : Request) (w : World)
    (hs : gmap string string) (p : Payload) :
  headers req = Some hs ->
  tokenAccepted params hs p ->
  canActivate (Some params) (req, w) =
    (caught (fst (requirePin (requiredPin params) (hs !! "x-email-pin") (hs !! "x-otp-pin")
                    (set_processedDynamicPayloadDTO (Some p) req, w))),
     snd (requirePin (requiredPin params) (hs !! "x-email-pin") (hs !! "x-otp-pin")
            (set_processedDynamicPayloadDTO (Some p) req, w))).
Proof.
  intros Hhs Hacc.
  rewrite canActivate_declared, (guarded_accepted _ _ _ _ _ _ _ _ _ Hhs Hacc). run.
  destruct (AuthenticationJWTDynamic.requirePin _ _ _ _ _ _) as [[b|e] rw']; reflexivity.
Qed.

Lemma checkEmailPin_attached (pin : string) (req : Request) (w : World) (p : Payload) :
  AuthenticationJWTDynamic.checkEmailPin validatePin pin
    (set_processedDynamicPayloadDTO (Some p) req, w)
  = (emailVerdict (payload_pin p) pin, (set_processedDynamicPayloadDTO (Some p) req, w)).
Proof. apply checkEmailPin_spec. reflexivity. Qed.

Lemma checkOtpPin_attached (otp : string) (req : Request) (w : World) (p : Payload) :
  AuthenticationJWTDynamic.checkOtpPin authenticator_check otp
    (set_processedDynamicPayloadDTO (Some p) req, w)
  = (otpVerdict w (payload_id p) otp,
     (set_processedDynamicPayloadDTO (Some p) req,
      log_call (ValidateOTP (payload_id p) otp) w)).
Proof. apply checkOtpPin_spec. reflexivity. Qed.

Lemma caught_emailVerdict (stored pin : string) :
  caught (emailVerdict stored pin)
  = if validatePin stored pin then Returns true else unauthorized "Invalid email pin".
Proof. unfold Outcome.emailVerdict. destruct (validatePin stored pin); reflexivity. Qed.

Lemma caught_otpVerdict_allow (w : World) (loginId otp : string) :
  caught (otpVerdict w loginId otp) = Returns true <-> otpAccepted w loginId otp.
Proof.
  split.
  - destruct (otpVerdict w loginId otp) as [b|e] eqn:Hv; [|discriminate].
    intros _. exact (otpVerdict_returns _ _ _ _ _ Hv).
  - intros Hacc. apply otpVerdict_true in Hacc. rewrite Hacc. reflexivity.
Qed.

(** A header value fails [if (v)] exactly when it is absent or empty. *)
Lemma truthy_None (v : option string) : truthy v = None <-> v = None \/ v = Some "".
Proof.
  unfold truthy. destruct v as [s|]; [|tauto].
  destruct (String.eqb_spec s "") as [->|Hne].
  - split; auto.
  - split; [discriminate|]. intros [H|H]; congruence.
Qed.

(** The token and step checks pass, or they do not and the body throws one
    of its own errors before it touches the request. *)
Lemma guarded_cases (params : Policy) (req : Request) (w : World) :
  (exists hs p, headers req = Some hs /\ tokenAccepted params hs p)
  \/ ((~ exists hs p, headers req = Some hs /\ tokenAccepted params hs p)
      /\ exists msg, guarded params (req, w) = (Throws (Error msg), (req, w))).
Proof.
  unfold AuthenticationJWTDynamic.guarded. run.
  destruct (headers req) as [hs|] eqn:Hhs.
  2:{ right. split; [|eauto]. intros (hs' & p' & Hhs' & _). discriminate. }
  destruct (truthy (hs !! "x-temporary-authorization")) as [token|] eqn:Htok.
  2:{ right. split; [|eauto].
      intros (hs' & p' & [= <-] & (token' & Htok' & _)). congruence. }
  cbn zeta.
  destruct (isBearerToken (newBearerTokenProcessor token)) eqn:Hbearer.
  2:{ right. split; [|eauto].
      intros (hs' & p' & [= <-] & (token' & Htok' & Hb' & _)). congruence. }
  destruct (isSignatureValid (newBearerTokenProcessor token) secondarySecret) eqn:Hsig.
  2:{ right. split; [|eauto].
      intros (hs' & p' & [= <-] & (token' & Htok' & _ & Hs' & _)). congruence. }
  cbn [negb].
  destruct (bool_decide (Some (step params)
                         = payload_type <$> payload (newBearerTokenProcessor token))) eqn:Hstep.
  2:{ right. split; [|eauto].
      intros (hs' & p' & [= <-] & (token' & Htok' & _ & _ & Hp' & Ht')).
      apply bool_decide_eq_false_1 in Hstep. apply Hstep.
      rewrite Htok in Htok'. injection Htok' as <-. rewrite Hp'. cbn. congruence. }
  apply bool_decide_eq_true_1 in Hstep.
  destruct (payload (newBearerTokenProcessor token)) as [p|] eqn:Hpayload; [|discriminate].
  injection Hstep as Hstep.
  left. exists hs, p. split; [reflexivity|]. exists token. auto.
Qed.

(** Where the [switch] leaves the request and the world: as they were, or
    with the one call of [validateOTP] for the payload's login and the
    supplied OTP. *)
Lemma requirePin_state (rp : RequiredPin) (pin otp : option string)
    (req : Request) (w : World) (p : Payload) :
  processedDynamicPayloadDTO req = Some p ->
  snd (requirePin rp pin otp (req, w)) = (req, w)
  \/ exists o, truthy otp = Some o
       /\ snd (requirePin rp pin otp (req, w))
          = (req, log_call (ValidateOTP (payload_id p) o) w).
Proof.
  intros Hdto. unfold AuthenticationJWTDynamic.requirePin.
  destruct rp as [| | |other].
  - destruct (truthy pin) as [v|] eqn:Hpin, (truthy otp) as [o|] eqn:Hotp; run.
    + rewrite (checkEmailPin_spec _ _ _ _ _ Hdto).
      destruct (Outcome.emailVerdict validatePin (payload_pin p) v); [|auto].
      rewrite (checkOtpPin_spec _ _ _ _ _ Hdto). right. eauto.
    + rewrite (checkEmailPin_spec _ _ _ _ _ Hdto).
      destruct (Outcome.emailVerdict validatePin (payload_pin p) v); auto.
    + rewrite (checkOtpPin_spec _ _ _ _ _ Hdto). right. eauto.
    + auto.
  - destruct (truthy pin) as [v|] eqn:Hpin; run; [|auto].
    rewrite (checkEmailPin_spec _ _ _ _ _ Hdto). auto.
  - destruct (truthy otp) as [o|] eqn:Hotp; run; [|auto].
    rewrite (checkOtpPin_spec _ _ _ _ _ Hdto). right. eauto.
  - auto.
Qed.

Lemma canActivate_state (params : Policy) (rw : Request * World) :
  snd (canActivate (Some params) rw) = snd (guarded params rw).
Proof.
  rewrite canActivate_declared.
  destruct (AuthenticationJWTDynamic.guarded _ _ _ _ _ _) as [[b|e] rw']; reflexivity.
Qed.

(** Where the guard leaves the request and the world, for every request. *)
Lemma canActivate_final (params : Policy) (req : Request) (w : World) :
  ((~ exists hs p, headers req = Some hs /\ tokenAccepted params hs p)
   /\ snd (canActivate (Some params) (req, w)) = (req, w))
  \/ exists hs p,
       headers req = Some hs /\ tokenAccepted params hs p
       /\ (snd (canActivate (Some params) (req, w))
           = (set_processedDynamicPayloadDTO (Some p) req, w)
           \/ exists o, truthy (hs !! "x-otp-pin") = Some o
                /\ snd (canActivate (Some params) (req, w))
                   = (set_processedDynamicPayloadDTO (Some p) req,
                      log_call (ValidateOTP (payload_id p) o) w)).
Proof.
  destruct (guarded_cases params req w) as [(hs & p & Hhs & Hacc)|[Hnot [msg Hg]]].
  - right. exists hs, p. split; [exact Hhs|]. split; [exact Hacc|].
    rewrite (canActivate_accepted _ _ _ _ _ Hhs Hacc). cbn [snd].
    apply requirePin_state. reflexivity.
  - left. split; [exact Hnot|]. rewrite canActivate_state, Hg. reflexivity.
Qed.

(** The five checks before the [switch] are made in order, each with its own
    cause: no headers, no authorization header (absent or empty), a token
    that is not well formed, a signature that does not verify, a payload
    whose [type] is not the declared step.  A request that fails one of them
    is rejected with that cause kept in the exception; nothing is attached
    to the request and the OTP service is not called. *)
Theorem token_checks_in_order (params : Policy) (req : Request) (w : World) :
  (headers req = None ->
   canActivate (Some params) (req, w) = (unauthorized "No header given", (req, w)))
  /\ (forall hs,
        headers req = Some hs ->
        truthy (hs !! "x-temporary-authorization") = None ->
        canActivate (Some params) (req, w)
        = (unauthorized "No authorization header given", (req, w)))
  /\ (forall hs token,
        headers req = Some hs ->
        truthy (hs !! "x-temporary-authorization") = Some token ->
        isBearerToken (newBearerTokenProcessor token) = false ->
        canActivate (Some params) (req, w) = (unauthorized "JWT decode error", (req, w)))
  /\ (forall hs token,
        headers req = Some hs ->
        truthy (hs !! "x-temporary-authorization") = Some token ->
        isBearerToken (newBearerTokenProcessor token) = true ->
        isSignatureValid (newBearerTokenProcessor token) secondarySecret = false ->
        canActivate (Some params) (req, w) = (unauthorized "JWT signature error", (req, w)))
  /\ (forall hs token,
        headers req = Some hs ->
        truthy (hs !! "x-temporary-authorization") = Some token ->
        isBearerToken (newBearerTokenProcessor token) = true ->
        isSignatureValid (newBearerTokenProcessor token) secondarySecret = true ->
        payload_type <$> payload (newBearerTokenProcessor token) <> Some (step params) ->
        canActivate (Some params) (req, w) = (unauthorized "Invalid step", (req, w))).
Proof.
  rewrite canActivate_declared. unfold AuthenticationJWTDynamic.guarded. run.
  repeat split.
  - intros ->. reflexivity.
  - intros hs -> ->. reflexivity.
  - intros hs token -> -> Hb. cbn zeta. rewrite Hb. reflexivity.
  - intros hs token -> -> Hb Hs. cbn zeta. rewrite Hb, Hs. reflexivity.
  - intros hs token -> -> Hb Hs Hstep. cbn zeta. rewrite Hb, Hs. cbn [negb].
    rewrite bool_decide_eq_false_2 by congruence. reflexivity.
Qed.

(** Under [ONLY_EMAIL], past the token and step checks and with an email pin
    supplied, the request is allowed if and only if [validatePin] accepts the
    pin against the payload's pin, and is rejected with cause
    [Invalid email pin] otherwise.  The OTP header plays no part, present or
    not, and the OTP service is not called. *)
Theorem only_email_policy (params : Policy) (req : Request) (w : World)
    (hs : gmap string string) (p : Payload) (pin : string) :
  requiredPin params = ONLY_EMAIL ->
  headers req = Some hs ->
  tokenAccepted params hs p ->
  truthy (hs !! "x-email-pin") = Some pin ->
  (fst (canActivate (Some params) (req, w)) = Returns true
   <-> validatePin (payload_pin p) pin = true)
  /\ (validatePin (payload_pin p) pin = false ->
      fst (canActivate (Some params) (req, w)) = unauthorized "Invalid email pin")
  /\ snd (snd (canActivate (Some params) (req, w))) = w.
Proof.
  intros Hrp Hhs Hacc Hpin.
  rewrite (canActivate_accepted _ _ _ _ _ Hhs Hacc), Hrp.
  unfold AuthenticationJWTDynamic.requirePin. rewrite Hpin, checkEmailPin_attached.
  cbn [fst snd]. rewrite caught_emailVerdict.
  destruct (validatePin (payload_pin p) pin); repeat split; auto; discriminate.
Qed.


(** Under [ANY] with both pins supplied the email pin is validated first.
    If it is not valid the request is rejected with cause
    [Invalid email pin] and the OTP is never looked at; if it is valid the
    OTP is validated too and decides. *)
Theorem any_with_both_pins (params : Policy) (req : Request) (w : World)
    (hs : gmap string string) (p : Payload) (pin otp : string) :
  requiredPin params = ANY ->
  headers req = Some hs ->
  tokenAccepted params hs p ->
  truthy (hs !! "x-email-pin") = Some pin ->
  truthy (hs !! "x-otp-pin") = Some otp ->
  (fst (canActivate (Some params) (req, w)) = Returns true
   <-> validatePin (payload_pin p) pin = true /\ otpAccepted w (payload_id p) otp)
  /\ (validatePin (payload_pin p) pin = false ->
      fst (canActivate (Some params) (req, w)) = unauthorized "Invalid email pin"
      /\ snd (snd (canActivate (Some params) (req, w))) = w)
  /\ (validatePin (payload_pin p) pin = true ->
      snd (snd (canActivate (Some params) (req, w)))
      = log_call (ValidateOTP (payload_id p) otp) w).
Proof.
  intros Hrp Hhs Hacc Hpin Hotp.
  rewrite (canActivate_accepted _ _ _ _ _ Hhs Hacc), Hrp.
  unfold AuthenticationJWTDynamic.requirePin. rewrite Hpin, Hotp. run.
  rewrite checkEmailPin_attached. unfold Outcome.emailVerdict.
  destruct (validatePin (payload_pin p) pin).
  - rewrite checkOtpPin_attached. cbn [fst snd].
    split; [|split; [discriminate|reflexivity]].
    rewrite caught_otpVerdict_allow. tauto.
  - cbn [fst snd]. split; [|split; [auto|discriminate]].
    split; [discriminate|]. intros [? _]. discriminate.
Qed.

(** Under [ANY] with an OTP supplied and no email pin (absent or empty), the
    OTP alone decides and [validatePin] is not consulted. *)
Theorem any_with_otp_only (params : Policy) (req : Request) (w : World)
    (hs : gmap string string) (p : Payload) (otp : string) :
  requiredPin params = ANY ->
  headers req = Some hs ->
  tokenAccepted params hs p ->
  truthy (hs !! "x-email-pin") = None ->
  truthy (hs !! "x-otp-pin") = Some otp ->
  (fst (canActivate (Some params) (req, w)) = Returns true
   <-> otpAccepted w (payload_id p) otp)
  /\ snd (snd (canActivate (Some params) (req, w)))
     = log_call (ValidateOTP (payload_id p) otp) w.
Proof.
  intros Hrp Hhs Hacc Hpin Hotp.
  rewrite (canActivate_accepted _ _ _ _ _ Hhs Hacc), Hrp.
  unfold AuthenticationJWTDynamic.requirePin. rewrite Hpin, Hotp. run.
  rewrite checkOtpPin_attached. cbn [fst snd].
  split; [apply caught_otpVerdict_allow|reflexivity].
Qed.

(** A pin header with the empty string as value counts as missing.  Past the
    token and step checks, a request whose required pin headers are absent
    or empty is rejected with the cause of the missing pin, without a call
    of [validatePin] (which might accept the empty pin) or of the OTP
    service. *)
Theorem empty_pin_is_missing (params : Policy) (req : Request) (w : World)
    (hs : gmap string string) (p : Payload) :
  headers req = Some hs ->
  tokenAccepted params hs p ->
  (requiredPin params = ONLY_EMAIL ->
   hs !! "x-email-pin" = None \/ hs !! "x-email-pin" = Some "" ->
   canActivate (Some params) (req, w)
   = (unauthorized "No email pin given", (set_processedDynamicPayloadDTO (Some p) req, w)))
  /\ (requiredPin params = ONLY_OTP ->
      hs !! "x-otp-pin" = None \/ hs !! "x-otp-pin" = Some "" ->
      canActivate (Some params) (req, w)
      = (unauthorized "No otp pin given", (set_processedDynamicPayloadDTO (Some p) req, w)))
  /\ (requiredPin params = ANY ->
      hs !! "x-email-pin" = None \/ hs !! "x-email-pin" = Some "" ->
      hs !! "x-otp-pin" = None \/ hs !! "x-otp-pin" = Some "" ->
      canActivate (Some params) (req, w)
      = (unauthorized "No pin specified", (set_processedDynamicPayloadDTO (Some p) req, w))).
Proof.
  intros Hhs Hacc. rewrite (canActivate_accepted _ _ _ _ _ Hhs Hacc).
  unfold AuthenticationJWTDynamic.requirePin. repeat split.
  - intros -> Hpin. apply truthy_None in Hpin. rewrite Hpin. reflexivity.
  - intros -> Hotp. apply truthy_None in Hotp. rewrite Hotp. reflexivity.
  - intros -> Hpin Hotp. apply truthy_None in Hpin, Hotp. rewrite Hpin, Hotp. reflexivity.
Qed.

(** The guard never writes to the login store: on every policy, request and
    outcome the login table, the clock and the secret generator are what
    they were, and the request keeps its headers. *)
Theorem guard_keeps_store (params : option Policy) (req : Request) (w : World) :
  db (snd (snd (canActivate params (req, w)))) = db w
  /\ now (snd (snd (canActivate params (req, w)))) = now w
  /\ entropy (snd (snd (canActivate params (req, w)))) = entropy w
  /\ headers (fst (snd (canActivate params (req, w)))) = headers req.
Proof.
  destruct params as [params|]; [|cbn; auto].
  destruct (canActivate_final params req w)
    as [[_ ->]|(hs & p & _ & _ & [->|(o & _ & ->)])]; cbn; auto.
Qed.

(** The guard calls [validateOTP] at most once per request, and only past
    the token and step checks, for the login id of the token's payload and
    the OTP header of the request. *)
Theorem guard_calls_validateOTP_at_most_once (params : option Policy) (req : Request)
    (w : World) :
  history (snd (snd (canActivate params (req, w)))) = history w
  \/ exists hs p otp,
       headers req = Some hs
       /\ (exists policy, params = Some policy /\ tokenAccepted policy hs p)
       /\ truthy (hs !! "x-otp-pin") = Some otp
       /\ history (snd (snd (canActivate params (req, w))))
          = (history w ++ [ValidateOTP (payload_id p) otp])%list.
Proof.
  destruct params as [params|]; [|left; reflexivity].
  destruct (canActivate_final params req w)
    as [[_ ->]|(hs & p & Hhs & Hacc & [->|(o & Ho & ->)])].
  - left. reflexivity.
  - left. reflexivity.
  - right. exists hs, p, o. split; [exact Hhs|]. split; [eauto|]. split; [exact Ho|].
    reflexivity.
Qed.

(** The payload is attached to the request exactly when the token and step
    checks pass, whether or not the pins are then accepted: past the checks
    the request carries the token's payload, and a request that fails them
    is left as it was. *)
Theorem payload_attached_iff_token_accepted (params : Policy) (req : Request) (w : World) :
  (forall hs p,
     headers req = Some hs ->
     tokenAccepted params hs p ->
     fst (snd (canActivate (Some params) (req, w)))
     = set_processedDynamicPayloadDTO (Some p) req)
  /\ ((~ exists hs p, headers req = Some hs /\ tokenAccepted params hs p) ->
      fst (snd (canActivate (Some params) (req, w))) = req).
Proof.
  split.
  - intros hs p Hhs Hacc. rewrite (canActivate_accepted _ _ _ _ _ Hhs Hacc). cbn [snd].
    destruct (requirePin_state (requiredPin params) (hs !! "x-email-pin")
                (hs !! "x-otp-pin") (set_processedDynamicPayloadDTO (Some p) req) w p
                eq_refl) as [->|(o & _ & ->)]; reflexivity.
  - intros Hnot.
    destruct (canActivate_final params req w) as [[_ ->]|(hs & p & Hhs & Hacc & _)];
      [reflexivity|].
    exfalso. apply Hnot. eauto.
Qed.

(** Provisioning and the guard together: once [createOTP] has given a login
    its secret, a request under [ONLY_OTP] with a token for that login is
    allowed if and only if the authenticator accepts the supplied code
    against that new secret. *)
Theorem createOTP_then_guard
    (authenticator_generateSecret : nat -> string)
    (authenticator_keyuri : string -> string -> string -> string) (appName : string)
    (params : Policy) (req : Request) (w : World)
    (hs : gmap string string) (p : Payload) (otp : string) (row : LoginRow) :
  requiredPin params = ONLY_OTP ->
  headers req = Some hs ->
  tokenAccepted params hs p ->
  truthy (hs !! "x-otp-pin") = Some otp ->
  db w !! payload_id p = Some row ->
  row_otpToken row = None ->
  fst (canActivate (Some params)
         (req, snd (OtpService.createOTP authenticator_generateSecret authenticator_keyuri
                      appName (payload_id p) w)))
  = Returns true
  <-> authenticator_check (now w) otp (Some (authenticator_generateSecret (entropy w)))
      = Returns true.
Proof.
  intros Hrp Hhs Hacc Hotp Hrow Hs.
  rewrite (createOTP_free _ _ _ _ _ _ Hrow Hs). cbn [snd].
  rewrite (canActivate_accepted _ _ _ _ _ Hhs Hacc), Hrp.
  unfold AuthenticationJWTDynamic.requirePin. rewrite Hotp, checkOtpPin_attached.
  cbn [fst]. rewrite caught_otpVerdict_allow. unfold Outcome.otpAccepted. cbn [db now].
  rewrite lookup_insert_eq. split.
  - intros (row' & [= <-] & Hok). exact Hok.
  - intros Hok. eexists. split; [reflexivity|exact Hok].
Qed.

End GuardPolicies.

(** * The code on the concrete deployment *)

Module Scenario.

Abbreviation validateOTP := (OtpService.validateOTP Demo.authenticator_check).
Abbreviation removeOTP := (OtpService.removeOTP Demo.authenticator_check).
Abbreviation createOTP :=
  (OtpService.createOTP Demo.authenticator_generateSecret Demo.authenticator_keyuri
     Demo.appName).
Abbreviation updateOTP :=
  (OtpService.updateOTP Demo.authenticator_check Demo.authenticator_generateSecret
     Demo.authenticator_keyuri Demo.appName).
Abbreviation canActivate :=
  (AuthenticationJWTDynamic.canActivate Demo.authenticator_check Demo.validatePin
     Demo.newBearerTokenProcessor Demo.secondarySecret).

Lemma u1_row :
  db Demo.world !! "u1" = Some {| row_email := "u1@om.io"; row_otpToken := Some "JBSW" |}.
Proof. vm_compute. reflexivity. Qed.

Lemma u2_row :
  db Demo.world !! "u2" = Some {| row_email := "u2@om.io"; row_otpToken := None |}.
Proof. vm_compute. reflexivity. Qed.

Lemma ghost_row : db Demo.world !! "ghost" = None.
Proof. vm_compute. reflexivity. Qed.

(** C1, as stated, fails: login [u2] has no secret, and with an authenticator
    that throws on a missing secret [validateOTP] throws too instead of
    returning an invalid result. *)
Lemma validateOTP_null_secret_throws :
  fst (validateOTP "u2" "123456" Demo.world)
    = Throws (TypeError "The first argument must be of type string")
  /\ ~ (forall (authenticator_check : Z -> string -> option string -> Completion bool)
          (w : World) (loginId token : string) (row : LoginRow),
           db w !! loginId = Some row ->
           row_otpToken row = None ->
           exists r : TupleResult bool,
             fst (OtpService.validateOTP authenticator_check loginId token w) = Returns r
             /\ fst r <> Some true).
Proof.
  split; [vm_compute; reflexivity|].
  intros Hclaim.
  destruct (Hclaim Demo.authenticator_check Demo.world "u2" "123456" _ u2_row eq_refl)
    as (r & Hr & _).
  vm_compute in Hr. discriminate Hr.
Qed.

Lemma validateOTP_null_secret_witness :
  fst (validateOTP "u2" "123456" Demo.world)
    = Throws (TypeError "The first argument must be of type string")
  /\ db (snd (validateOTP "u2" "123456" Demo.world)) = db Demo.world.
Proof.
  exact (validateOTP_null_secret Demo.authenticator_check "u2" "123456" Demo.world _
           u2_row eq_refl).
Defined.

(** C2 on the code: no login [ghost] exists, and [validateOTP] and
    [removeOTP] for it do not return [[null, LOGIN_NOT_FOUND]]; both throw
    the [TypeError] of reading [otpToken] off [null]. *)
Theorem missing_login_throws :
  db Demo.world !! "ghost" = None
  /\ fst (validateOTP "ghost" "JBSW0" Demo.world)
     = Throws (TypeError "Cannot read properties of null (reading 'otpToken')")
  /\ fst (removeOTP "ghost" "JBSW0" Demo.world)
     = Throws (TypeError "Cannot read properties of null (reading 'otpToken')")
  /\ fst (validateOTP "ghost" "JBSW0" Demo.world) <> Returns (None, Some LOGIN_NOT_FOUND)
  /\ fst (removeOTP "ghost" "JBSW0" Demo.world) <> Returns (None, Some LOGIN_NOT_FOUND).
Proof.
  split; [exact ghost_row|].
  rewrite (validateOTP_missing _ _ _ _ ghost_row), (removeOTP_missing _ _ _ _ ghost_row).
  cbn [fst]. repeat split; discriminate.
Qed.

(** C3 on the code: login [u1] has the secret [JBSW] and [JBSW0] is its valid
    code; [removeOTP] returns [[true, null]] and the secret is still stored. *)
Theorem removeOTP_keeps_secret :
  fst (removeOTP "u1" "JBSW0" Demo.world) = Returns (Some true, None)
  /\ row_otpToken <$> db (snd (removeOTP "u1" "JBSW0" Demo.world)) !! "u1"
     = Some (Some "JBSW").
Proof.
  rewrite (removeOTP_db Demo.authenticator_check), u1_row.
  rewrite (removeOTP_found _ _ _ _ _ u1_row). split; reflexivity.
Qed.

Lemma createOTP_already_has_otp_witness :
  fst (createOTP "u1" Demo.world) = Returns (None, Some LOGIN_ALREADY_HAS_OTP)
  /\ db (snd (createOTP "u1" Demo.world)) = db Demo.world
  /\ row_otpToken <$> db (snd (createOTP "u1" Demo.world)) !! "u1" = Some (Some "JBSW")
  /\ entropy (snd (createOTP "u1" Demo.world)) = entropy Demo.world.
Proof.
  exact (createOTP_already_has_otp Demo.authenticator_generateSecret
           Demo.authenticator_keyuri Demo.appName "u1" Demo.world _ "JBSW" u1_row eq_refl).
Defined.

(** C6, as stated, fails: login [u2] has no secret, so no code is valid for
    it, and with an authenticator that throws on a missing secret
    [updateOTP] and [removeOTP] throw instead of returning an error. *)
Lemma invalid_proof_code_throws :
  Demo.authenticator_check (now Demo.world) "JBSW0" None <> Returns true
  /\ fst (updateOTP "u2" "JBSW0" Demo.world)
     = Throws (TypeError "The first argument must be of type string")
  /\ fst (removeOTP "u2" "JBSW0" Demo.world)
     = Throws (TypeError "The first argument must be of type string")
  /\ ~ (forall (authenticator_check : Z -> string -> option string -> Completion bool)
          (authenticator_generateSecret : nat -> string)
          (authenticator_keyuri : string -> string -> string -> string)
          (appName : string)
          (w : World) (loginId token : string) (row : LoginRow),
           db w !! loginId = Some row ->
           authenticator_check (now w) token (row_otpToken row) <> Returns true ->
           ((exists err : ErrorCode,
               fst (OtpService.updateOTP authenticator_check authenticator_generateSecret
                      authenticator_keyuri appName loginId token w)
               = Returns (None, Some err))
            /\ db (snd (OtpService.updateOTP authenticator_check
                          authenticator_generateSecret authenticator_keyuri appName
                          loginId token w)) = db w)
           /\ ((exists err : ErrorCode,
                  fst (OtpService.removeOTP authenticator_check loginId token w)
                  = Returns (None, Some err))
               /\ db (snd (OtpService.removeOTP authenticator_check loginId token w))
                  = db w)).
Proof.
  split; [discriminate|]. split; [vm_compute; reflexivity|].
  split; [vm_compute; reflexivity|].
  intros Hclaim.
  destruct (Hclaim Demo.authenticator_check Demo.authenticator_generateSecret
              Demo.authenticator_keyuri Demo.appName Demo.world "u2" "JBSW0" _ u2_row
              ltac:(discriminate))
    as [[[err Herr] _] _].
  vm_compute in Herr. discriminate Herr.
Qed.

Lemma invalid_proof_code_no_mutation_witness :
  (fst (updateOTP "u1" "000000" Demo.world) = Returns (None, Some TOKEN_OTP_INVALID)
   /\ db (snd (updateOTP "u1" "000000" Demo.world)) = db Demo.world
   /\ entropy (snd (updateOTP "u1" "000000" Demo.world)) = entropy Demo.world)
  /\ (fst (removeOTP "u1" "000000" Demo.world) = Returns (None, Some TOKEN_OTP_INVALID)
      /\ db (snd (removeOTP "u1" "000000" Demo.world)) = db Demo.world
      /\ entropy (snd (removeOTP "u1" "000000" Demo.world)) = entropy Demo.world).
Proof.
  exact (invalid_proof_code_no_mutation Demo.authenticator_check
           Demo.authenticator_generateSecret Demo.authenticator_keyuri Demo.appName
           "u1" "000000" Demo.world _ u1_row ltac:(discriminate)).
Defined.

(** The token of [u1] for step [reset] is accepted under a policy for that
    step, whatever else the request carries. *)
Lemma reset_token_accepted (rp : option RequiredPin) (rest : list (string * string)) :
  Outcome.tokenAccepted Demo.newBearerTokenProcessor Demo.secondarySecret
    (JWTDynamic "reset" rp)
    (list_to_map (("x-temporary-authorization", "reset.u1.4321.k2") :: rest))
    {| payload_type := "reset"; payload_id := "u1"; payload_pin := "4321" |}.
Proof.
  exists "reset.u1.4321.k2". split; [|repeat split].
  cbn [list_to_map foldr uncurry fst snd]. rewrite lookup_insert_eq. reflexivity.
Qed.

Lemma step_mismatch_rejected_witness :
  Outcome.Unauthorized
    (fst (canActivate (Some (JWTDynamic "confirm" (Some ONLY_EMAIL)))
            (Demo.request [("x-temporary-authorization", "reset.u1.4321.k2");
                           ("x-email-pin", "4321")], Demo.world))).
Proof.
  apply (step_mismatch_rejected Demo.authenticator_check Demo.validatePin
           Demo.newBearerTokenProcessor Demo.secondarySecret
           (JWTDynamic "confirm" (Some ONLY_EMAIL)) _ Demo.world
           (list_to_map [("x-temporary-authorization", "reset.u1.4321.k2");
                         ("x-email-pin", "4321")])
           "reset.u1.4321.k2"
           {| payload_type := "reset"; payload_id := "u1"; payload_pin := "4321" |}).
  - reflexivity.
  - vm_compute. reflexivity.
  - vm_compute. reflexivity.
  - discriminate.
Defined.

Lemma any_with_email_pin_only_witness :
  fst (canActivate (Some (JWTDynamic "reset" None))
         (Demo.request [("x-temporary-authorization", "reset.u1.4321.k2");
                        ("x-email-pin", "4321")], Demo.world)) = Returns true
  /\ history (snd (snd (canActivate (Some (JWTDynamic "reset" None))
         (Demo.request [("x-temporary-authorization", "reset.u1.4321.k2");
                        ("x-email-pin", "4321")], Demo.world)))) = [].
Proof.
  destruct (any_with_email_pin_only Demo.authenticator_check Demo.validatePin
              Demo.newBearerTokenProcessor Demo.secondarySecret
              (JWTDynamic "reset" None)
              (Demo.request [("x-temporary-authorization", "reset.u1.4321.k2");
                             ("x-email-pin", "4321")])
              Demo.world _ _ "4321"
              eq_refl eq_refl (reset_token_accepted None [("x-email-pin", "4321")])
              ltac:(vm_compute; reflexivity) ltac:(vm_compute; reflexivity))
    as (Hallow & _ & _ & Hhistory).
  split; [apply Hallow; reflexivity|exact Hhistory].
Defined.

Lemma only_otp_without_otp_rejected_witness :
  Outcome.Unauthorized
    (fst (canActivate (Some (JWTDynamic "reset" (Some ONLY_OTP)))
            (Demo.request [("x-temporary-authorization", "reset.u1.4321.k2");
                           ("x-email-pin", "4321")], Demo.world))).
Proof.
  apply (only_otp_without_otp_rejected Demo.authenticator_check Demo.validatePin
           Demo.newBearerTokenProcessor Demo.secondarySecret
           (JWTDynamic "reset" (Some ONLY_OTP)) _ Demo.world
           (list_to_map [("x-temporary-authorization", "reset.u1.4321.k2");
                         ("x-email-pin", "4321")])
           "4321").
  - reflexivity.
  - reflexivity.
  - vm_compute. reflexivity.
  - vm_compute. reflexivity.
Defined.

(** A forged token fails the signature check and is turned away with the
    uniform exception; the same request with the genuine token is allowed. *)
Lemma guard_outcomes_witness :
  Outcome.Unauthorized
    (fst (canActivate (Some (JWTDynamic "reset" (Some ONLY_EMAIL)))
            (Demo.request [("x-temporary-authorization", "reset.u1.4321.forged");
                           ("x-email-pin", "4321")], Demo.world)))
  /\ fst (canActivate (Some (JWTDynamic "reset" (Some ONLY_EMAIL)))
            (Demo.request [("x-temporary-authorization", "reset.u1.4321.k2");
                           ("x-email-pin", "4321")], Demo.world)) = Returns true.
Proof.
  split.
  - apply (proj1 (proj2 (guard_outcomes Demo.authenticator_check Demo.validatePin
                           Demo.newBearerTokenProcessor Demo.secondarySecret
                           (JWTDynamic "reset" (Some ONLY_EMAIL)) _ Demo.world))).
    apply (Outcome.JwtSignatureError _ _ _ _ _ _ _
             (list_to_map [("x-temporary-authorization", "reset.u1.4321.forged");
                           ("x-email-pin", "4321")])
             "reset.u1.4321.forged").
    + reflexivity.
    + vm_compute. reflexivity.
    + vm_compute. reflexivity.
  - apply (proj2 (proj2 (guard_outcomes Demo.authenticator_check Demo.validatePin
                           Demo.newBearerTokenProcessor Demo.secondarySecret
                           (JWTDynamic "reset" (Some ONLY_EMAIL)) _ Demo.world))).
    intros Hfail.
    apply (Failure_not_Authorized _ _ _ _ _ _ _ Hfail).
    exists (list_to_map [("x-temporary-authorization", "reset.u1.4321.k2");
                         ("x-email-pin", "4321")]),
      {| payload_type := "reset"; payload_id := "u1"; payload_pin := "4321" |}.
    split; [reflexivity|]. split; [apply reset_token_accepted|].
    exists "4321". split; vm_compute; reflexivity.
Defined.

Lemma other_required_pin_allows_witness :
  canActivate (Some (JWTDynamic "reset" (Some (OtherPin "NONE"))))
    (Demo.request [("x-temporary-authorization", "reset.u1.4321.k2")], Demo.world)
  = (Returns true,
     (set_processedDynamicPayloadDTO
        (Some {| payload_type := "reset"; payload_id := "u1"; payload_pin := "4321" |})
        (Demo.request [("x-temporary-authorization", "reset.u1.4321.k2")]),
      Demo.world)).
Proof.
  apply (other_required_pin_allows Demo.authenticator_check Demo.validatePin
           Demo.newBearerTokenProcessor Demo.secondarySecret
           (JWTDynamic "reset" (Some (OtherPin "NONE"))) _ Demo.world
           (list_to_map [("x-temporary-authorization", "reset.u1.4321.k2")])).
  - discriminate.
  - discriminate.
  - discriminate.
  - reflexivity.
  - apply reset_token_accepted.
Defined.

(** ** Provisioning and rotation on the deployment *)

Lemma createOTP_login_not_found_witness :
  fst (createOTP "ghost" Demo.world) = Returns (None, Some LOGIN_NOT_FOUND)
  /\ db (snd (createOTP "ghost" Demo.world)) = db Demo.world
  /\ entropy (snd (createOTP "ghost" Demo.world)) = entropy Demo.world.
Proof.
  exact (createOTP_login_not_found Demo.authenticator_generateSecret
           Demo.authenticator_keyuri Demo.appName "ghost" Demo.world ghost_row).
Defined.

Lemma createOTP_provisions_witness :
  fst (createOTP "u2" Demo.world)
    = Returns (Some {| secret := "SECRET";
                       keyUri := "otpauth://totp/om:u2@om.io?secret=SECRET" |}, None)
  /\ db (snd (createOTP "u2" Demo.world)) !! "u2"
     = Some {| row_email := "u2@om.io"; row_otpToken := Some "SECRET" |}
  /\ db (snd (createOTP "u2" Demo.world)) !! "u1" = db Demo.world !! "u1".
Proof.
  destruct (createOTP_provisions Demo.authenticator_generateSecret
              Demo.authenticator_keyuri Demo.appName "u2" Demo.world _ u2_row eq_refl)
    as (Hresult & Hstored & Hothers & _).
  split; [exact Hresult|]. split; [exact Hstored|]. apply Hothers. discriminate.
Defined.

Lemma createOTP_twice_witness :
  fst (createOTP "u2" (snd (createOTP "u2" Demo.world)))
    = Returns (None, Some LOGIN_ALREADY_HAS_OTP)
  /\ row_otpToken <$> db (snd (createOTP "u2" (snd (createOTP "u2" Demo.world)))) !! "u2"
     = Some (Some "SECRET").
Proof.
  destruct (createOTP_twice Demo.authenticator_generateSecret
              Demo.authenticator_keyuri Demo.appName "u2" Demo.world _ u2_row eq_refl)
    as (Hsecond & _ & Hkept).
  split; [exact Hsecond|exact Hkept].
Defined.

Lemma createOTP_then_validateOTP_witness :
  fst (validateOTP "u2" "SECRET0" (snd (createOTP "u2" Demo.world)))
    = Returns (Some true, None)
  /\ fst (validateOTP "u2" "000000" (snd (createOTP "u2" Demo.world)))
     = Returns (Some false, None).
Proof.
  split.
  - exact (createOTP_then_validateOTP Demo.authenticator_check
             Demo.authenticator_generateSecret Demo.authenticator_keyuri Demo.appName
             "u2" "SECRET0" Demo.world _ u2_row eq_refl).
  - exact (createOTP_then_validateOTP Demo.authenticator_check
             Demo.authenticator_generateSecret Demo.authenticator_keyuri Demo.appName
             "u2" "000000" Demo.world _ u2_row eq_refl).
Defined.

Lemma updateOTP_login_not_found_witness :
  fst (updateOTP "ghost" "JBSW0" Demo.world) = Returns (None, Some LOGIN_NOT_FOUND)
  /\ db (snd (updateOTP "ghost" "JBSW0" Demo.world)) = db Demo.world
  /\ entropy (snd (updateOTP "ghost" "JBSW0" Demo.world)) = entropy Demo.world.
Proof.
  exact (updateOTP_login_not_found Demo.authenticator_check
           Demo.authenticator_generateSecret Demo.authenticator_keyuri Demo.appName
           "ghost" "JBSW0" Demo.world ghost_row).
Defined.

Lemma updateOTP_rotates_witness :
  fst (updateOTP "u1" "JBSW0" Demo.world)
    = Returns (Some {| secret := "SECRET";
                       keyUri := "otpauth://totp/om:u1@om.io?secret=SECRET" |}, None)
  /\ db (snd (updateOTP "u1" "JBSW0" Demo.world)) !! "u1"
     = Some {| row_email := "u1@om.io"; row_otpToken := Some "SECRET" |}
  /\ db (snd (updateOTP "u1" "JBSW0" Demo.world)) !! "u2" = db Demo.world !! "u2".
Proof.
  destruct (updateOTP_rotates Demo.authenticator_check Demo.authenticator_generateSecret
              Demo.authenticator_keyuri Demo.appName "u1" "JBSW0" Demo.world _
              u1_row eq_refl)
    as (Hresult & Hstored & Hothers & _).
  split; [exact Hresult|]. split; [exact Hstored|]. apply Hothers. discriminate.
Defined.

Lemma updateOTP_check_throws_witness :
  fst (updateOTP "u2" "JBSW0" Demo.world)
    = Throws (TypeError "The first argument must be of type string")
  /\ db (snd (updateOTP "u2" "JBSW0" Demo.world)) = db Demo.world
  /\ entropy (snd (updateOTP "u2" "JBSW0" Demo.world)) = entropy Demo.world.
Proof.
  exact (updateOTP_check_throws Demo.authenticator_check Demo.authenticator_generateSecret
           Demo.authenticator_keyuri Demo.appName "u2" "JBSW0" Demo.world _ _
           u2_row eq_refl).
Defined.

Lemma updateOTP_then_validateOTP_witness :
  fst (validateOTP "u1" "JBSW0" (snd (updateOTP "u1" "JBSW0" Demo.world)))
    = Returns (Some false, None)
  /\ fst (validateOTP "u1" "SECRET0" (snd (updateOTP "u1" "JBSW0" Demo.world)))
     = Returns (Some true, None).
Proof.
  split.
  - exact (updateOTP_then_validateOTP Demo.authenticator_check
             Demo.authenticator_generateSecret Demo.authenticator_keyuri Demo.appName
             "u1" "JBSW0" "JBSW0" Demo.world _ u1_row eq_refl).
  - exact (updateOTP_then_validateOTP Demo.authenticator_check
             Demo.authenticator_generateSecret Demo.authenticator_keyuri Demo.appName
             "u1" "JBSW0" "SECRET0" Demo.world _ u1_row eq_refl).
Defined.

(** ** The guard's policies on the deployment *)

Lemma reset_u2_token_accepted (rp : option RequiredPin) (rest : list (string * string)) :
  Outcome.tokenAccepted Demo.newBearerTokenProcessor Demo.secondarySecret
    (JWTDynamic "reset" rp)
    (list_to_map (("x-temporary-authorization", "reset.u2.4321.k2") :: rest))
    {| payload_type := "reset"; payload_id := "u2"; payload_pin := "4321" |}.
Proof.
  exists "reset.u2.4321.k2". split; [|repeat split].
  cbn [list_to_map foldr uncurry fst snd]. rewrite lookup_insert_eq. reflexivity.
Qed.

Lemma token_checks_in_order_witness :
  canActivate (Some (JWTDynamic "reset" None))
    ({| headers := None; processedDynamicPayloadDTO := None |}, Demo.world)
  = (Throws (HttpException "Not authorized for perform action" 401 "No header given"),
     ({| headers := None; processedDynamicPayloadDTO := None |}, Demo.world))
  /\ canActivate (Some (JWTDynamic "reset" None))
       (Demo.request [("x-temporary-authorization", "reset.u1.4321.forged");
                      ("x-email-pin", "4321")], Demo.world)
     = (Throws (HttpException "Not authorized for perform action" 401 "JWT signature error"),
        (Demo.request [("x-temporary-authorization", "reset.u1.4321.forged");
                       ("x-email-pin", "4321")], Demo.world)).
Proof.
  split.
  - apply (proj1 (token_checks_in_order Demo.authenticator_check Demo.validatePin
                    Demo.newBearerTokenProcessor Demo.secondarySecret
                    (JWTDynamic "reset" None) _ Demo.world)).
    reflexivity.
  - apply (proj1 (proj2 (proj2 (proj2
             (token_checks_in_order Demo.authenticator_check Demo.validatePin
                Demo.newBearerTokenProcessor Demo.secondarySecret
                (JWTDynamic "reset" None) _ Demo.world))))
             (list_to_map [("x-temporary-authorization", "reset.u1.4321.forged");
                           ("x-email-pin", "4321")])
             "reset.u1.4321.forged").
    + reflexivity.
    + vm_compute. reflexivity.
    + vm_compute. reflexivity.
    + vm_compute. reflexivity.
Defined.

Lemma only_email_policy_witness :
  fst (canActivate (Some (JWTDynamic "reset" (Some ONLY_EMAIL)))
         (Demo.request [("x-temporary-authorization", "reset.u1.4321.k2");
                        ("x-email-pin", "4321"); ("x-otp-pin", "wrong")], Demo.world))
    = Returns true
  /\ fst (canActivate (Some (JWTDynamic "reset" (Some ONLY_EMAIL)))
            (Demo.request [("x-temporary-authorization", "reset.u1.4321.k2");
                           ("x-email-pin", "0000"); ("x-otp-pin", "JBSW0")], Demo.world))
     = Throws (HttpException "Not authorized for perform action" 401 "Invalid email pin").
Proof.
  split.
  - apply (only_email_policy Demo.authenticator_check Demo.validatePin
             Demo.newBearerTokenProcessor Demo.secondarySecret
             (JWTDynamic "reset" (Some ONLY_EMAIL))
             (Demo.request [("x-temporary-authorization", "reset.u1.4321.k2");
                            ("x-email-pin", "4321");
                            ("x-otp-pin", "wrong")])
             Demo.world _ _ "4321"
             eq_refl eq_refl
             (reset_token_accepted (Some ONLY_EMAIL)
                [("x-email-pin", "4321"); ("x-otp-pin", "wrong")])
             ltac:(vm_compute; reflexivity)).
    reflexivity.
  - apply (only_email_policy Demo.authenticator_check Demo.validatePin
             Demo.newBearerTokenProcessor Demo.secondarySecret
             (JWTDynamic "reset" (Some ONLY_EMAIL))
             (Demo.request [("x-temporary-authorization", "reset.u1.4321.k2");
                            ("x-email-pin", "0000");
                            ("x-otp-pin", "JBSW0")])
             Demo.world _ _ "0000"
             eq_refl eq_refl
             (reset_token_accepted (Some ONLY_EMAIL)
                [("x-email-pin", "0000"); ("x-otp-pin", "JBSW0")])
             ltac:(vm_compute; reflexivity)).
    reflexivity.
Defined.


Lemma any_with_both_pins_witness :
  fst (canActivate (Some (JWTDynamic "reset" None))
         (Demo.request [("x-temporary-authorization", "reset.u1.4321.k2");
                        ("x-email-pin", "0000"); ("x-otp-pin", "JBSW0")], Demo.world))
    = Throws (HttpException "Not authorized for perform action" 401 "Invalid email pin")
  /\ snd (snd (canActivate (Some (JWTDynamic "reset" None))
         (Demo.request [("x-temporary-authorization", "reset.u1.4321.k2");
                        ("x-email-pin", "0000"); ("x-otp-pin", "JBSW0")], Demo.world)))
     = Demo.world.
Proof.
  apply (any_with_both_pins Demo.authenticator_check Demo.validatePin
           Demo.newBearerTokenProcessor Demo.secondarySecret
           (JWTDynamic "reset" None)
             (Demo.request [("x-temporary-authorization", "reset.u1.4321.k2");
                            ("x-email-pin", "0000");
                            ("x-otp-pin", "JBSW0")])
             Demo.world _ _ "0000" "JBSW0"
           eq_refl eq_refl
           (reset_token_accepted None [("x-email-pin", "0000"); ("x-otp-pin", "JBSW0")])
           ltac:(vm_compute; reflexivity) ltac:(vm_compute; reflexivity)).
  reflexivity.
Defined.

Lemma any_with_otp_only_witness :
  fst (canActivate (Some (JWTDynamic "reset" None))
         (Demo.request [("x-temporary-authorization", "reset.u1.4321.k2");
                        ("x-email-pin", ""); ("x-otp-pin", "JBSW0")], Demo.world))
    = Returns true.
Proof.
  apply (any_with_otp_only Demo.authenticator_check Demo.validatePin
           Demo.newBearerTokenProcessor Demo.secondarySecret
           (JWTDynamic "reset" None)
             (Demo.request [("x-temporary-authorization", "reset.u1.4321.k2");
                            ("x-email-pin", "");
                            ("x-otp-pin", "JBSW0")])
             Demo.world _ _ "JBSW0"
           eq_refl eq_refl
           (reset_token_accepted None [("x-email-pin", ""); ("x-otp-pin", "JBSW0")])
           ltac:(vm_compute; reflexivity) ltac:(vm_compute; reflexivity)).
  eexists. split; [exact u1_row|reflexivity].
Defined.

Lemma empty_pin_is_missing_witness :
  fst (canActivate (Some (JWTDynamic "reset" (Some ONLY_EMAIL)))
         (Demo.request [("x-temporary-authorization", "reset.u1.4321.k2");
                        ("x-email-pin", "")], Demo.world))
    = Throws (HttpException "Not authorized for perform action" 401 "No email pin given").
Proof.
  rewrite (proj1 (empty_pin_is_missing Demo.authenticator_check Demo.validatePin
                    Demo.newBearerTokenProcessor Demo.secondarySecret
                    (JWTDynamic "reset" (Some ONLY_EMAIL))
             (Demo.request [("x-temporary-authorization", "reset.u1.4321.k2"); ("x-email-pin", "")])
             Demo.world _ _
                    eq_refl
                    (reset_token_accepted (Some ONLY_EMAIL) [("x-email-pin", "")]))
             eq_refl ltac:(right; vm_compute; reflexivity)).
  reflexivity.
Defined.

Lemma payload_attached_iff_token_accepted_witness :
  processedDynamicPayloadDTO
    (fst (snd (canActivate (Some (JWTDynamic "reset" (Some ONLY_EMAIL)))
                 (Demo.request [("x-temporary-authorization", "reset.u1.4321.k2");
                                ("x-email-pin", "0000")], Demo.world))))
  = Some {| payload_type := "reset"; payload_id := "u1"; payload_pin := "4321" |}.
Proof.
  rewrite (proj1 (payload_attached_iff_token_accepted Demo.authenticator_check
                    Demo.validatePin Demo.newBearerTokenProcessor Demo.secondarySecret
                    (JWTDynamic "reset" (Some ONLY_EMAIL))
                    (Demo.request [("x-temporary-authorization", "reset.u1.4321.k2");
                                   ("x-email-pin", "0000")])
                    Demo.world) _ _
             eq_refl
             (reset_token_accepted (Some ONLY_EMAIL) [("x-email-pin", "0000")])).
  reflexivity.
Defined.

Lemma createOTP_then_guard_witness :
  fst (canActivate (Some (JWTDynamic "reset" (Some ONLY_OTP)))
         (Demo.request [("x-temporary-authorization", "reset.u2.4321.k2");
                        ("x-otp-pin", "SECRET0")],
          snd (createOTP "u2" Demo.world)))
    = Returns true.
Proof.
  apply (createOTP_then_guard Demo.authenticator_check Demo.validatePin
           Demo.newBearerTokenProcessor Demo.secondarySecret
           Demo.authenticator_generateSecret Demo.authenticator_keyuri Demo.appName
           (JWTDynamic "reset" (Some ONLY_OTP))
             (Demo.request [("x-temporary-authorization", "reset.u2.4321.k2");
                            ("x-otp-pin", "SECRET0")])
             Demo.world _
           {| payload_type := "reset"; payload_id := "u2"; payload_pin := "4321" |}
           "SECRET0" _
           eq_refl eq_refl
           (reset_u2_token_accepted (Some ONLY_OTP) [("x-otp-pin", "SECRET0")])
           ltac:(vm_compute; reflexivity) u2_row eq_refl).
  reflexivity.
Defined.

End Scenario.
